(** * page-notifier: the change-detection pipeline

    A shallow embedding of [page_tracker.py] (element extraction and
    normalisation) and of the [ChangeDetector] class of [main.py]
    (comparison, diff generation, notification, polling loop).

    Python strings are modelled as [string]; a character stands for a code
    point below 256.  The third-party libraries the program calls
    (BeautifulSoup with the "html.parser" builder, soupsieve, difflib,
    urllib) are modelled on a small document tree; the parts of them that
    are algorithms of their own (the HTML parser, the selector language, the
    sequence matcher, the URL parser) are parameters of the development, and
    executable instances of them are given for concrete runs. *)

From Stdlib Require Import String Ascii List Bool Arith ZArith Lia.
From Stdlib Require Import Numbers.DecimalString.
Import ListNotations.
Set Warnings "-register-all".
Open Scope list_scope.
Open Scope string_scope.

(** ** Python string operations *)

Module PyStr.

(** [str.isspace] on one character (code points below 256). *)
Definition isspace (c : ascii) : bool :=
  let n := nat_of_ascii c in
  (((9 <=? n) && (n <=? 13)) || ((28 <=? n) && (n <=? 32))
   || (n =? 133) || (n =? 160))%nat.

Fixpoint lstrip (s : string) : string :=
  match s with
  | EmptyString => EmptyString
  | String c s' => if isspace c then lstrip s' else s
  end.

Fixpoint rstrip (s : string) : string :=
  match s with
  | EmptyString => EmptyString
  | String c s' =>
      match rstrip s' with
      | EmptyString => if isspace c then EmptyString else String c EmptyString
      | r => String c r
      end
  end.

(** [s.strip()] *)
Definition strip (s : string) : string := rstrip (lstrip s).

(** [s.split(sep)] for a one-character separator. *)
Fixpoint split (sep : ascii) (s : string) : list string :=
  match s with
  | EmptyString => [EmptyString]
  | String c s' =>
      if Ascii.eqb c sep then EmptyString :: split sep s'
      else match split sep s' with
           | [] => [String c EmptyString]
           | h :: t => String c h :: t
           end
  end.

(** [sep.join(parts)] *)
Definition join (sep : string) (parts : list string) : string :=
  String.concat sep parts.

(** Truthiness of a string: [if s]. *)
Definition truthy (s : string) : bool := negb (s =? "").

Definition first_char (s : string) : option ascii :=
  match s with EmptyString => None | String c _ => Some c end.

Fixpoint last_char (s : string) : option ascii :=
  match s with
  | EmptyString => None
  | String c EmptyString => Some c
  | String _ s' => last_char s'
  end.

(** Two adjacent whitespace characters somewhere in [s]. *)
Fixpoint has_space_run (s : string) : bool :=
  match s with
  | EmptyString => false
  | String c s' =>
      match s' with
      | EmptyString => false
      | String d _ => (isspace c && isspace d) || has_space_run s'
      end
  end.

(** Whether every character of [s] is whitespace. *)
Fixpoint all_space (s : string) : bool :=
  match s with
  | EmptyString => true
  | String c s' => isspace c && all_space s'
  end.

Definition starts_with_space (s : string) : bool :=
  match first_char s with Some c => isspace c | None => false end.

Definition ends_with_space (s : string) : bool :=
  match last_char s with Some c => isspace c | None => false end.

(** A piece of normalized text: not empty, no whitespace at either end. *)
Definition trimmed (p : string) : Prop :=
  p <> "" /\ starts_with_space p = false /\ ends_with_space p = false.

End PyStr.

(** ** Exceptions and results *)

Inductive exn : Type :=
| ValueError (msg : string)
| HTTPError (msg : string)        (* raised by the page request *)
| ClientError (msg : string)      (* raised by the notifier's delivery *)
| UnknownTimeZoneError (zone : string).   (* raised by pytz.timezone *)

(** [isinstance(e, ValueError)] *)
Definition is_ValueError (e : exn) : bool :=
  match e with ValueError _ => true | _ => false end.

Inductive outcome (A : Type) : Type :=
| Returns (a : A)
| Raises (e : exn).
Arguments Returns {A} a.
Arguments Raises {A} e.

(** ** The document tree of BeautifulSoup *)

Module Bs4.

(** The classes of the strings inside [style], [script], [template], [rt]
    and [rp] elements; [get_text] passes such strings over. *)
Inductive string_class : Type :=
| Stylesheet | Script | TemplateString | RubyTextString
| RubyParenthesisString.

(** A page element: a tag with its attribute dictionary and contents, a
    text string, or a string that is not text (comment, doctype, string of
    one of the classes above). *)
Inductive node : Type :=
| Tag (name : string) (attrs : list (string * string)) (contents : list node)
| NavigableString (text : string)
| Comment (text : string)
| Doctype (text : string)
| ContainedString (class : string_class) (text : string).

(** The name of the [BeautifulSoup] object, the root of every tree; it is
    the one tag that is not written out when the tree is serialised. *)
Definition ROOT_TAG_NAME : string := "[document]".

(** [HTMLTreeBuilder.empty_element_tags] *)
Definition empty_element_tags : list string :=
  ["area"; "base"; "br"; "col"; "embed"; "hr"; "img"; "input"; "keygen";
   "link"; "menuitem"; "meta"; "param"; "source"; "track"; "wbr";
   "basefont"; "bgsound"; "command"; "frame"; "image"; "isindex"; "nextid";
   "spacer"].

Definition mem (s : string) (l : list string) : bool :=
  existsb (String.eqb s) l.

Definition can_be_empty_element (name : string) : bool :=
  mem name empty_element_tags.

(** [tag.get(key)] *)
Fixpoint get (key : string) (attrs : list (string * string)) : option string :=
  match attrs with
  | [] => None
  | (k, v) :: rest => if k =? key then Some v else get key rest
  end.

Definition is_tag (n : node) : bool :=
  match n with Tag _ _ _ => true | _ => false end.

Definition tag_name (n : node) : option string :=
  match n with Tag name _ _ => Some name | _ => None end.

(** [element.descendants]: every node below [n], in document order. *)
Fixpoint descendants (n : node) : list node :=
  match n with
  | Tag _ _ contents => flat_map (fun c => c :: descendants c) contents
  | _ => []
  end.

(** [element.find(name)]: the first tag below [n] with that name. *)
Definition find_name (name : string) (n : node) : option node :=
  List.find (fun d => match d with
                      | Tag nm _ _ => nm =? name
                      | _ => false
                      end) (descendants n).

(** *** Serialisation: [str(element)] with the "minimal" formatter *)

(** [EntitySubstitution.substitute_xml] *)
Fixpoint substitute_xml (s : string) : string :=
  match s with
  | EmptyString => EmptyString
  | String c s' =>
      (if Ascii.eqb c "&" then "&amp;"
       else if Ascii.eqb c "<" then "&lt;"
       else if Ascii.eqb c ">" then "&gt;"
       else String c EmptyString) ++ substitute_xml s'
  end.

Fixpoint contains_char (c : ascii) (s : string) : bool :=
  match s with
  | EmptyString => false
  | String d s' => Ascii.eqb c d || contains_char c s'
  end.

Fixpoint replace_char (c : ascii) (by_ : string) (s : string) : string :=
  match s with
  | EmptyString => EmptyString
  | String d s' =>
      (if Ascii.eqb c d then by_ else String d EmptyString)
      ++ replace_char c by_ s'
  end.

Definition dquote : ascii := ascii_of_nat 34.
Definition squote : ascii := ascii_of_nat 39.

(** [EntitySubstitution.quoted_attribute_value] *)
Definition quoted_attribute_value (v : string) : string :=
  if contains_char dquote v then
    if contains_char squote v then
      String dquote (replace_char dquote "&quot;" v ++ String dquote "")
    else String squote (v ++ String squote "")
  else String dquote (v ++ String dquote "").

Definition attribute_string (attrs : list (string * string)) : string :=
  String.concat ""
    (map (fun '(k, v) =>
            " " ++ k ++ "=" ++ quoted_attribute_value (substitute_xml v))
         attrs).

(** [Tag.decode] and [PageElement.output_ready]. *)
Fixpoint decode (n : node) : string :=
  match n with
  | Tag name attrs contents =>
      let inner := String.concat "" (map decode contents) in
      if name =? ROOT_TAG_NAME then inner
      else
        match contents with
        | [] =>
            if can_be_empty_element name
            then "<" ++ name ++ attribute_string attrs ++ "/>"
            else "<" ++ name ++ attribute_string attrs ++ ">"
                 ++ "</" ++ name ++ ">"
        | _ => "<" ++ name ++ attribute_string attrs ++ ">"
               ++ inner ++ "</" ++ name ++ ">"
        end
  | NavigableString s => substitute_xml s
  | Comment s => "<!--" ++ s ++ "-->"
  | Doctype s => "<!DOCTYPE " ++ s ++ ">" ++ String (ascii_of_nat 10) ""
  | ContainedString class s =>
      match class with
      | Stylesheet | Script => s
      | _ => substitute_xml s
      end
  end.

(** *** Elements as shared, mutable objects

    [find_all] hands out references to elements of the tree, and
    [decompose] detaches the referenced element from its parent.  An element
    is identified by its position, the child indices leading to it from the
    root of the tree as it was parsed; the tree in its current state is the
    parsed tree together with the positions detached so far. *)

Definition position := list nat.

Fixpoint position_eqb (p q : position) : bool :=
  match p, q with
  | [], [] => true
  | i :: p', j :: q' => Nat.eqb i j && position_eqb p' q'
  | _, _ => false
  end.

Record soup : Type := mkSoup {
  root : node;
  detached : list position
}.

Definition is_detached (s : list position) (p : position) : bool :=
  existsb (position_eqb p) s.

Section Indexed.
Context {A B : Type} (f : nat -> A -> list B).

(** [f] over the elements of a list with their indices, results
    concatenated. *)
Fixpoint flat_mapi (i : nat) (l : list A) : list B :=
  match l with
  | [] => []
  | x :: l' => (f i x ++ flat_mapi (S i) l')%list
  end.

End Indexed.

(** The tags at or below [n] (which sits at [here]) that satisfy [test]
    and are still attached, in document order. *)
Fixpoint matching_at (test : node -> bool) (gone : list position)
    (here : position) (n : node) : list position :=
  if is_detached gone here then [] else
  match n with
  | Tag _ _ contents =>
      ((if test n then [here] else [])
       ++ flat_mapi (fun i c => matching_at test gone (here ++ [i])%list c)
            0 contents)%list
  | _ => []
  end.

(** Whether [n] is a tag whose attribute [key] is exactly [value]. *)
Definition has_attr (key value : string) (n : node) : bool :=
  match n with
  | Tag _ attrs _ =>
      match get key attrs with Some v => v =? value | None => false end
  | _ => false
  end.

(** [soup.find_all(attrs={key: value})]: the root itself is not a
    candidate. *)
Definition find_all_attrs (key value : string) (s : soup) : list position :=
  match root s with
  | Tag _ _ contents =>
      flat_mapi (fun i c => matching_at (has_attr key value) (detached s) [i] c)
        0 contents
  | _ => []
  end.

(** [element.decompose()] *)
Definition decompose (p : position) (s : soup) : soup :=
  mkSoup (root s) (p :: detached s).

(** The text strings at or below [n] that are still attached, in document
    order ([_all_strings] with the default string types: comments and
    doctypes are passed over). *)
Fixpoint strings_at (gone : list position) (here : position) (n : node)
    : list string :=
  if is_detached gone here then [] else
  match n with
  | Tag _ _ contents =>
      flat_mapi (fun i c => strings_at gone (here ++ [i])%list c) 0 contents
  | NavigableString t => [t]
  | _ => []
  end.

(** [_all_strings(strip=True)]: each string stripped, empty ones dropped. *)
Definition stripped_strings (l : list string) : list string :=
  filter PyStr.truthy (map PyStr.strip l).

(** [soup.get_text(separator=sep, strip=True)] *)
Definition get_text (sep : string) (s : soup) : string :=
  PyStr.join sep (stripped_strings (strings_at (detached s) [] (root s))).

(** *** The tree without its hidden elements *)

(** A tag whose [type] attribute is the string [hidden]. *)
Definition is_hidden (n : node) : bool := has_attr "type" "hidden" n.
Arguments is_hidden : simpl never.

(** [n] with every hidden element below it taken out, subtree and all. *)
Fixpoint prune (n : node) : node :=
  match n with
  | Tag name attrs contents =>
      Tag name attrs
        (flat_map (fun c => if is_hidden c then [] else [prune c]) contents)
  | _ => n
  end.

(** The text strings at or below [n], in document order. *)
Fixpoint texts (n : node) : list string :=
  match n with
  | Tag _ _ contents => flat_map texts contents
  | NavigableString t => [t]
  | _ => []
  end.

(** The text strings at or below [n] that no hidden element encloses. *)
Fixpoint visible_texts (n : node) : list string :=
  if is_hidden n then [] else
  match n with
  | Tag _ _ contents => flat_map visible_texts contents
  | NavigableString t => [t]
  | _ => []
  end.

(** Induction on a node, with the property at hand for all its contents. *)
Section NodeInduction.
Variable Q : node -> Prop.
Hypothesis on_tag : forall name attrs contents,
  Forall Q contents -> Q (Tag name attrs contents).
Hypothesis on_string : forall t, Q (NavigableString t).
Hypothesis on_comment : forall t, Q (Comment t).
Hypothesis on_doctype : forall t, Q (Doctype t).
Hypothesis on_contained : forall class t, Q (ContainedString class t).

Fixpoint node_induction (n : node) : Q n :=
  match n with
  | Tag name attrs contents =>
      on_tag name attrs contents
        ((fix all (l : list node) : Forall Q l :=
            match l with
            | [] => Forall_nil Q
            | c :: l' => Forall_cons c (node_induction c) (all l')
            end) contents)
  | NavigableString t => on_string t
  | Comment t => on_comment t
  | Doctype t => on_doctype t
  | ContainedString class t => on_contained class t
  end.

End NodeInduction.

End Bs4.

(** ** Library algorithms taken as parameters *)

(** [BeautifulSoup(markup, "html.parser")]: the top-level nodes the parser
    builds from the markup. *)
Class HtmlParser : Type := { parse : string -> list Bs4.node }.

(** soupsieve: whether a CSS selector matches a tag.  Matching is taken tag
    by tag; a selector that soupsieve rejects as ill-formed raises there and
    is outside this development. *)
Class SelectorEngine : Type := { css_match : string -> Bs4.node -> bool }.

(** ** page_tracker.py *)

Module PageTracker.
Import Bs4.

Section WithLibraries.
Context {P : HtmlParser} {E : SelectorEngine}.

(** [BeautifulSoup(html_content, "html.parser")] *)
Definition BeautifulSoup (html_content : string) : node :=
  Tag ROOT_TAG_NAME [] (parse html_content).

(** [element.select_one(selector)]: the first tag below the element, in
    document order, that the selector matches. *)
Definition select_one (element : node) (selector : string) : option node :=
  List.find (fun d => is_tag d && css_match selector d) (descendants element).

Definition not_found_message (selector selector_path : string) : string :=
  "Element not found for selector '" ++ selector ++ "' in path '"
  ++ selector_path ++ "'".

(** [[s.strip() for s in selector_path.split("|") if s.strip()]] *)
Definition selectors_of (selector_path : string) : list string :=
  map PyStr.strip
    (filter (fun s => PyStr.truthy (PyStr.strip s))
       (PyStr.split "|" selector_path)).

(** The [for selector in selectors] loop of [extract_element]. *)
Fixpoint apply_selectors (selector_path : string) (current_element : node)
    (selectors : list string) : outcome node :=
  match selectors with
  | [] => Returns current_element
  | selector :: rest =>
      match select_one current_element selector with
      | None => Raises (ValueError (not_found_message selector selector_path))
      | Some found => apply_selectors selector_path found rest
      end
  end.

(** The element a chain of selectors leads to, each one applied to the
    match of the one before: none as soon as one of them matches nothing. *)
Fixpoint descend (current_element : node) (selectors : list string)
    : option node :=
  match selectors with
  | [] => Some current_element
  | selector :: rest =>
      match select_one current_element selector with
      | None => None
      | Some found => descend found rest
      end
  end.

Definition extract_element (html_content selector_path : string)
    : outcome string :=
  let soup := BeautifulSoup html_content in
  if negb (PyStr.truthy selector_path) || (PyStr.strip selector_path =? "")
  then
    match find_name "body" soup with
    | None => Returns html_content
    | Some body => Returns (decode body)
    end
  else
    let selectors := selectors_of selector_path in
    match apply_selectors selector_path soup selectors with
    | Raises e => Raises e
    | Returns current_element => Returns (decode current_element)
    end.

Definition normalize_html (html_content : string) : string :=
  let soup := mkSoup (BeautifulSoup html_content) [] in
  let soup :=
    fold_left (fun s hidden_element => decompose hidden_element s)
      (find_all_attrs "type" "hidden" soup) soup in
  get_text " " soup.

End WithLibraries.
End PageTracker.

(** ** An executable HTML parser for concrete runs

    A model of [BeautifulSoup(markup, "html.parser")] on plain markup: text,
    start and end tags, attributes (quoted, unquoted or without a value),
    [/>], comments, declarations and the character references [&lt;]
    [&gt;] [&amp;] [&quot;] [&nbsp;].  Elements of [empty_element_tags] take
    no contents, an end tag closes the nearest open element of its name and
    is ignored when there is none, and everything still open is closed at the
    end of the input.  A string inside a [style], [script], [template],
    [rt] or [rp] element gets the class of that element.  The raw-text mode
    of [script] and [style] (markup inside them read as text), CDATA
    sections, processing instructions, numeric character references and
    unterminated markup are outside the model. *)

Module HtmlParserModel.
Import Bs4.

Inductive token : Type :=
| TStart (name : string) (attrs : list (string * string)) (self_closing : bool)
| TEnd (name : string)
| TData (data : string)
| TComment (data : string)
| TDecl (data : string).

Definition is_alpha (c : ascii) : bool :=
  let n := nat_of_ascii c in
  (((65 <=? n) && (n <=? 90)) || ((97 <=? n) && (n <=? 122)))%nat.

Definition lower (c : ascii) : ascii :=
  let n := nat_of_ascii c in
  if ((65 <=? n) && (n <=? 90))%nat then ascii_of_nat (n + 32) else c.

Fixpoint starts_with (p s : string) : bool :=
  match p, s with
  | EmptyString, _ => true
  | String a p', String b s' => Ascii.eqb a b && starts_with p' s'
  | _, _ => false
  end.

(** The character reference at the head of [s] (just after an ampersand):
    the character it stands for and the number of characters it takes. *)
Definition entity_at (s : string) : option (ascii * nat) :=
  if starts_with "lt;" s then Some ("<"%char, 3)
  else if starts_with "gt;" s then Some (">"%char, 3)
  else if starts_with "amp;" s then Some ("&"%char, 4)
  else if starts_with "quot;" s then Some (dquote, 5)
  else if starts_with "nbsp;" s then Some (ascii_of_nat 160, 5)
  else None.

Fixpoint unescape_from (skip : nat) (s : string) : string :=
  match s with
  | EmptyString => EmptyString
  | String c r =>
      match skip with
      | S k => unescape_from k r
      | O =>
          if Ascii.eqb c "&" then
            match entity_at r with
            | Some (ch, len) => String ch (unescape_from len r)
            | None => String c (unescape_from 0 r)
            end
          else String c (unescape_from 0 r)
      end
  end.

(** [html.unescape] on the references of the model. *)
Definition unescape (s : string) : string := unescape_from 0 s.

(** [attr_dict[key] = value]: a repeated attribute keeps its first place and
    takes the last value. *)
Fixpoint dict_set (d : list (string * string)) (key value : string)
    : list (string * string) :=
  match d with
  | [] => [(key, value)]
  | (k, v) :: rest =>
      if k =? key then (k, value) :: rest else (k, v) :: dict_set rest key value
  end.

Inductive mode : Type :=
| MText (raw : string)
| MTagName (closing : bool) (name : string)
| MEndRest (name : string)
| MBeforeAttr (name : string) (attrs : list (string * string))
| MAttrName (name : string) (attrs : list (string * string)) (key : string)
| MAfterAttrName (name : string) (attrs : list (string * string)) (key : string)
| MBeforeValue (name : string) (attrs : list (string * string)) (key : string)
| MValue (quote : option ascii) (name : string) (attrs : list (string * string))
    (key value : string)
| MSlash (name : string) (attrs : list (string * string))
| MComment (body : string)
| MDecl (body : string).

Definition snoc (s : string) (c : ascii) : string := s ++ String c "".

Definition data_token (raw : string) : list token :=
  if raw =? "" then [] else [TData (unescape raw)].

(** The tokens of the markup; [skip] characters are passed over first. *)
Fixpoint lex (m : mode) (skip : nat) (s : string) : list token :=
  match s with
  | EmptyString => match m with MText raw => data_token raw | _ => [] end
  | String c r =>
    match skip with
    | S k => lex m k r
    | O =>
      match m with
      | MText raw =>
          if Ascii.eqb c "<" then
            if starts_with "!--" r then
              (data_token raw ++ lex (MComment "") 3 r)%list
            else if starts_with "!" r then
              (data_token raw ++ lex (MDecl "") 1 r)%list
            else
              match r with
              | String d r' =>
                  if is_alpha d then
                    (data_token raw ++ lex (MTagName false "") 0 r)%list
                  else if Ascii.eqb d "/" then
                    match r' with
                    | String e _ =>
                        if is_alpha e then
                          (data_token raw ++ lex (MTagName true "") 1 r)%list
                        else lex (MText (snoc raw c)) 0 r
                    | EmptyString => lex (MText (snoc raw c)) 0 r
                    end
                  else lex (MText (snoc raw c)) 0 r
              | EmptyString => lex (MText (snoc raw c)) 0 r
              end
          else lex (MText (snoc raw c)) 0 r
      | MTagName closing name =>
          if Ascii.eqb c ">" then
            (if closing then TEnd name else TStart name [] false)
            :: lex (MText "") 0 r
          else if PyStr.isspace c then
            lex (if closing then MEndRest name else MBeforeAttr name []) 0 r
          else if Ascii.eqb c "/" then
            lex (if closing then MEndRest name else MSlash name []) 0 r
          else lex (MTagName closing (snoc name (lower c))) 0 r
      | MEndRest name =>
          if Ascii.eqb c ">" then TEnd name :: lex (MText "") 0 r
          else lex m 0 r
      | MBeforeAttr name attrs =>
          if Ascii.eqb c ">" then TStart name attrs false :: lex (MText "") 0 r
          else if Ascii.eqb c "/" then lex (MSlash name attrs) 0 r
          else if PyStr.isspace c then lex m 0 r
          else lex (MAttrName name attrs (String (lower c) "")) 0 r
      | MAttrName name attrs key =>
          if Ascii.eqb c "=" then lex (MBeforeValue name attrs key) 0 r
          else if Ascii.eqb c ">" then
            TStart name (dict_set attrs key "") false :: lex (MText "") 0 r
          else if Ascii.eqb c "/" then
            lex (MSlash name (dict_set attrs key "")) 0 r
          else if PyStr.isspace c then lex (MAfterAttrName name attrs key) 0 r
          else lex (MAttrName name attrs (snoc key (lower c))) 0 r
      | MAfterAttrName name attrs key =>
          if PyStr.isspace c then lex m 0 r
          else if Ascii.eqb c "=" then lex (MBeforeValue name attrs key) 0 r
          else if Ascii.eqb c ">" then
            TStart name (dict_set attrs key "") false :: lex (MText "") 0 r
          else if Ascii.eqb c "/" then
            lex (MSlash name (dict_set attrs key "")) 0 r
          else
            lex (MAttrName name (dict_set attrs key "") (String (lower c) ""))
              0 r
      | MBeforeValue name attrs key =>
          if PyStr.isspace c then lex m 0 r
          else if Ascii.eqb c dquote || Ascii.eqb c squote then
            lex (MValue (Some c) name attrs key "") 0 r
          else if Ascii.eqb c ">" then
            TStart name (dict_set attrs key "") false :: lex (MText "") 0 r
          else lex (MValue None name attrs key (String c "")) 0 r
      | MValue (Some q) name attrs key value =>
          if Ascii.eqb c q then
            lex (MBeforeAttr name (dict_set attrs key (unescape value))) 0 r
          else lex (MValue (Some q) name attrs key (snoc value c)) 0 r
      | MValue None name attrs key value =>
          if PyStr.isspace c then
            lex (MBeforeAttr name (dict_set attrs key (unescape value))) 0 r
          else if Ascii.eqb c ">" then
            TStart name (dict_set attrs key (unescape value)) false
            :: lex (MText "") 0 r
          else lex (MValue None name attrs key (snoc value c)) 0 r
      | MSlash name attrs =>
          if Ascii.eqb c ">" then TStart name attrs true :: lex (MText "") 0 r
          else if PyStr.isspace c then lex (MBeforeAttr name attrs) 0 r
          else lex (MAttrName name attrs (String (lower c) "")) 0 r
      | MComment body =>
          if Ascii.eqb c "-" && starts_with "->" r then
            TComment body :: lex (MText "") 2 r
          else lex (MComment (snoc body c)) 0 r
      | MDecl body =>
          if Ascii.eqb c ">" then TDecl body :: lex (MText "") 0 r
          else lex (MDecl (snoc body c)) 0 r
      end
    end
  end.

(** *** Tree building *)

(** An open element: its name, attributes and the contents built so far.
    The stack has the innermost element first and the root last. *)
Definition frame : Type := string * list (string * string) * list node.

Definition frame_name (f : frame) : string := fst (fst f).

Definition append_child (n : node) (stack : list frame) : list frame :=
  match stack with
  | [] => []
  | (name, attrs, contents) :: below =>
      (name, attrs, (contents ++ [n])%list) :: below
  end.

(** Whether an element named [name] is open (the root is not a candidate). *)
Fixpoint is_open (name : string) (stack : list frame) : bool :=
  match stack with
  | [] => false
  | [_] => false
  | f :: below => (frame_name f =? name) || is_open name below
  end.

(** [_popToTag]: close elements up to and including the nearest one named
    [name]; [pending] holds the element closed last. *)
Fixpoint pop_to (name : string) (pending : list node) (stack : list frame)
    : list frame :=
  match stack with
  | [] => []
  | (n, attrs, contents) :: below =>
      let closed := Tag n attrs (contents ++ pending)%list in
      if n =? name then append_child closed below
      else pop_to name [closed] below
  end.

Fixpoint close_all (pending : list node) (stack : list frame) : list node :=
  match stack with
  | [] => pending
  | (n, attrs, contents) :: below =>
      match below with
      | [] => (contents ++ pending)%list
      | _ => close_all [Tag n attrs (contents ++ pending)%list] below
      end
  end.

Definition is_ascii_space (c : ascii) : bool :=
  let n := nat_of_ascii c in
  ((n =? 32) || (n =? 10) || (n =? 9) || (n =? 12) || (n =? 13))%nat.

Fixpoint all_chars (f : ascii -> bool) (s : string) : bool :=
  match s with
  | EmptyString => true
  | String c s' => f c && all_chars f s'
  end.

Definition preserve_whitespace_tags : list string := ["pre"; "textarea"].

(** [endData]: a string of ASCII spaces only shrinks to one newline or one
    space, unless an open element preserves whitespace. *)
Definition end_data (stack : list frame) (data : string) : string :=
  if all_chars is_ascii_space data
     && negb (existsb (fun f => mem (frame_name f) preserve_whitespace_tags)
                stack)
  then if contains_char (ascii_of_nat 10) data
       then String (ascii_of_nat 10) "" else " "
  else data.

Definition doctype_of (decl : string) : string :=
  if starts_with "DOCTYPE " decl then substring 8 (String.length decl - 8) decl
  else decl.

(** [HTMLTreeBuilder.DEFAULT_STRING_CONTAINERS] *)
Definition string_containers : list (string * string_class) :=
  [("rt", RubyTextString); ("rp", RubyParenthesisString);
   ("style", Stylesheet); ("script", Script); ("template", TemplateString)].

(** [string_container]: the class for a string, given by the innermost open
    element that is a string container, if any. *)
Fixpoint string_container (stack : list frame) : option string_class :=
  match stack with
  | [] => None
  | f :: below =>
      match List.find (fun kv => fst kv =? frame_name f) string_containers
      with
      | Some kv => Some (snd kv)
      | None => string_container below
      end
  end.

Definition make_string (stack : list frame) (data : string) : node :=
  match string_container stack with
  | Some class => ContainedString class data
  | None => NavigableString data
  end.

Definition handle (stack : list frame) (t : token) : list frame :=
  match t with
  | TData data => append_child (make_string stack (end_data stack data)) stack
  | TComment data => append_child (Comment data) stack
  | TDecl data => append_child (Doctype (doctype_of data)) stack
  | TStart name attrs self_closing =>
      if self_closing || can_be_empty_element name
      then append_child (Tag name attrs []) stack
      else (name, attrs, []) :: stack
  | TEnd name => if is_open name stack then pop_to name [] stack else stack
  end.

Definition build (tokens : list token) : list node :=
  close_all [] (fold_left handle tokens [(ROOT_TAG_NAME, [], [])]).

Definition html_parser : HtmlParser :=
  {| parse := fun markup => build (lex (MText "") 0 markup) |}.

(** *** Simple selectors

    A model of soupsieve on the selectors [tag], [#id] and [.class]. *)

Definition is_ident_char (c : ascii) : bool :=
  let n := nat_of_ascii c in
  (is_alpha c || ((48 <=? n) && (n <=? 57)) || (n =? 45) || (n =? 95))%nat.

Definition is_ident (s : string) : bool :=
  negb (s =? "") && all_chars is_ident_char s.

(** [value.split()]: the words of a string. *)
Fixpoint words_from (word : string) (s : string) : list string :=
  match s with
  | EmptyString => if word =? "" then [] else [word]
  | String c s' =>
      if PyStr.isspace c
      then if word =? "" then words_from "" s' else word :: words_from "" s'
      else words_from (snoc word c) s'
  end.

Definition simple_match (selector : string) (n : node) : bool :=
  match n, selector with
  | Tag name attrs _, String c rest =>
      if Ascii.eqb c "#" then
        is_ident rest
        && match get "id" attrs with Some v => v =? rest | None => false end
      else if Ascii.eqb c "." then
        is_ident rest
        && match get "class" attrs with
           | Some v => mem rest (words_from "" v)
           | None => false
           end
      else is_ident selector && (name =? selector)
  | _, _ => false
  end.

Definition simple_selectors : SelectorEngine := {| css_match := simple_match |}.

End HtmlParserModel.

(** ** difflib *)

Module Difflib.

Definition CR : ascii := ascii_of_nat 13.
Definition LF : ascii := ascii_of_nat 10.

(** The line boundaries of [str.splitlines] (code points below 256). *)
Definition is_linebreak (c : ascii) : bool :=
  let n := nat_of_ascii c in
  (((10 <=? n) && (n <=? 13)) || ((28 <=? n) && (n <=? 30)) || (n =? 133))%nat.

(** [s.splitlines(keepends=True)]; [line] is the line being read. *)
Fixpoint splitlines_from (line : string) (s : string) : list string :=
  match s with
  | EmptyString => if line =? "" then [] else [line]
  | String c r =>
      if is_linebreak c then
        if Ascii.eqb c CR then
          match r with
          | String d r' =>
              if Ascii.eqb d LF
              then (line ++ String c (String d "")) :: splitlines_from "" r'
              else (line ++ String c "") :: splitlines_from "" r
          | EmptyString => [line ++ String c ""]
          end
        else (line ++ String c "") :: splitlines_from "" r
      else splitlines_from (line ++ String c "") r
  end.

Definition splitlines (s : string) : list string := splitlines_from "" s.

(** The number of lines of a text: [len(text.splitlines())]. *)
Definition line_count (text : string) : nat := List.length (splitlines text).

(** The number of line boundaries in a text; a carriage return followed by
    a line feed makes one boundary. *)
Fixpoint breaks (s : string) : nat :=
  match s with
  | EmptyString => 0
  | String c r =>
      if is_linebreak c then
        if Ascii.eqb c CR then
          match r with
          | String d _ => if Ascii.eqb d LF then breaks r else S (breaks r)
          | EmptyString => 1
          end
        else S (breaks r)
      else breaks r
  end.

(** Whether a text has no line boundary in it. *)
Fixpoint no_break (s : string) : bool :=
  match s with
  | EmptyString => true
  | String c r => negb (is_linebreak c) && no_break r
  end.

(** What an entry of a diff looks like: it does not start with a line feed
    and holds one line boundary at most. *)
Definition entry_ok (e : string) : Prop :=
  PyStr.first_char e <> Some LF /\ breaks e <= 1.

(** [str(n)] for an integer. *)
Definition str_of_int (n : Z) : string := NilEmpty.string_of_int (Z.to_int n).

Inductive tag : Type := replace | delete | insert | equal.

(** An opcode [(tag, i1, i2, j1, j2)]. *)
Record opcode : Type := mkOp {
  op_tag : tag; i1 : nat; i2 : nat; j1 : nat; j2 : nat
}.

(** [SequenceMatcher(None, a, b).get_grouped_opcodes(n)]; its groups are
    never empty. *)
Class SequenceMatcher : Type := {
  get_grouped_opcodes : list string -> list string -> nat -> list (list opcode)
}.

(** [l[i:j]] for indices within range and in order. *)
Definition slice {A : Type} (l : list A) (i j : nat) : list A :=
  firstn (j - i) (skipn i l).

Definition _format_range_unified (start stop : nat) : string :=
  let beginning := (Z.of_nat start + 1)%Z in
  let length := (Z.of_nat stop - Z.of_nat start)%Z in
  if (length =? 1)%Z then str_of_int beginning
  else
    let beginning := if (length =? 0)%Z then (beginning - 1)%Z else beginning in
    str_of_int beginning ++ "," ++ str_of_int length.

Section UnifiedDiff.
Context {M : SequenceMatcher}.

(** [mark + line] for each line. *)
Definition marked (mark : string) (lines : list string) : list string :=
  map (fun line => mark ++ line) lines.

Definition group_lines (a b : list string) (group : list opcode)
    : list string :=
  flat_map
    (fun op =>
       match op_tag op with
       | equal => marked " " (slice a (i1 op) (i2 op))
       | replace =>
           app (marked "-" (slice a (i1 op) (i2 op)))
               (marked "+" (slice b (j1 op) (j2 op)))
       | delete => marked "-" (slice a (i1 op) (i2 op))
       | insert => marked "+" (slice b (j1 op) (j2 op))
       end)
    group.

Definition no_op : opcode := mkOp equal 0 0 0 0.

Definition hunk (a b : list string) (lineterm : string) (group : list opcode)
    : list string :=
  let first := hd no_op group in
  let last := List.last group no_op in
  let file1_range := _format_range_unified (i1 first) (i2 last) in
  let file2_range := _format_range_unified (j1 first) (j2 last) in
  ("@@ -" ++ file1_range ++ " +" ++ file2_range ++ " @@" ++ lineterm)
  :: group_lines a b group.

(** [list(difflib.unified_diff(a, b, fromfile, tofile, lineterm=lineterm,
    n=n))], without file dates. *)
Definition unified_diff (a b : list string) (fromfile tofile : string)
    (lineterm : string) (n : nat) : list string :=
  match get_grouped_opcodes a b n with
  | [] => []
  | groups =>
      ("--- " ++ fromfile ++ lineterm)
      :: ("+++ " ++ tofile ++ lineterm)
      :: flat_map (hunk a b lineterm) groups
  end.

End UnifiedDiff.

(** The opcodes of two sequences that have no line in common: nothing when
    both are empty, one group that replaces, inserts or deletes everything
    otherwise.  Equal sequences give no group. *)
Definition whole_change (a b : list string) (n : nat) : list (list opcode) :=
  if list_eq_dec string_dec a b then []
  else
    match a, b with
    | [], _ => [[mkOp insert 0 0 0 (List.length b)]]
    | _, [] => [[mkOp delete 0 (List.length a) 0 0]]
    | _, _ => [[mkOp replace 0 (List.length a) 0 (List.length b)]]
    end.

Definition whole_change_matcher : SequenceMatcher :=
  {| get_grouped_opcodes := whole_change |}.

End Difflib.

(** [urlparse(url).hostname], which may raise. *)
Class UrlParser : Type := { hostname_of : string -> outcome (option string) }.

(** [pytz.timezone(name)], which raises for a zone it does not know. *)
Class TimeZones : Type := { known_zone : string -> bool }.

(** ** main.py: the change detector *)

Module Main.
Import Bs4 PageTracker Difflib.

(** The arguments of [send_notification]. *)
Record notification : Type := mkNotification {
  title : string;
  message : string;
  url : string;
  hostname : option string;
  diff : string
}.

Inductive level : Type := DEBUG | INFO | WARNING | ERROR.

(** What a log line reports. *)
Inductive log_message : Type :=
| TimeSinceLastRequest (delta : Z)
| FailedToFetchPage (e : exn)
| FailedToExtractElement (e : exn)
| NormalizedContent (text : string)
| InitialContentStored (success errors : nat)
| ChangeDetected (success errors : nat)
| NoChange (success errors : nat)
| NotificationSent
| FailedToSendNotification (e : exn)
| NoNotifierConfigured.

(** What a cycle does, in the order in which it does it: its log lines, its
    assignments to [_previous_content] and its calls of the notifier. *)
Inductive event : Type :=
| Log (l : level) (m : log_message)
| Dispatch (n : notification)
| StoreContent (text : string).

(** The fields of a [ChangeDetector] that a cycle reads or writes; the
    jitter, the time zone and the logger are left out. *)
Record ChangeDetector : Type := mkDetector {
  _url : string;
  _element_selector : string;
  _reload_time_ms : Z;
  _notifier : bool;                     (* whether a notifier is configured *)
  _previous_content : option string;
  _last_request_time : option Z;
  _success_count : nat;
  _error_count : nat
}.

(** [ChangeDetector.__init__]: the URL is checked first, then the time zone
    is looked up, then the notifier is made when a webhook URL is given.
    [Float] stands for the type of the jitter, which is only stored. *)
Definition init {T : TimeZones} {Float : Type}
    (url element_selector : string) (reload_time_ms : Z)
    (reload_std_ms : Float) (webhook_url timezone : string)
    : outcome ChangeDetector :=
  if negb (PyStr.truthy url) then Raises (ValueError "WEBPAGE_URL is required")
  else if negb (known_zone timezone)
  then Raises (UnknownTimeZoneError timezone)
  else Returns (mkDetector url element_selector reload_time_ms
                  (PyStr.truthy webhook_url) None None 0 0).

(** What the outside world does during one cycle: the clock, the answer to
    the page request and the fate of a notification, should one be sent. *)
Record cycle : Type := mkCycle {
  now : Z;
  response : outcome string;
  delivery : outcome unit
}.

(** *** Methods: state, log and exceptions *)

Definition method (A : Type) : Type :=
  ChangeDetector -> outcome A * ChangeDetector * list event.

Definition ret {A : Type} (a : A) : method A := fun self => (Returns a, self, []).

Definition bind {A B : Type} (c : method A) (k : A -> method B) : method B :=
  fun self =>
    match c self with
    | (Returns a, self', t) =>
        match k a self' with
        | (r, self'', t') => (r, self'', (t ++ t')%list)
        end
    | (Raises e, self', t) => (Raises e, self', t)
    end.

Definition raise {A : Type} (e : exn) : method A :=
  fun self => (Raises e, self, []).

(** [try: body except <catches> as e: handler(e)] *)
Definition try_except {A : Type} (body : method A) (catches : exn -> bool)
    (handler : exn -> method A) : method A :=
  fun self =>
    match body self with
    | (Raises e, self', t) =>
        if catches e then
          match handler e self' with
          | (r, self'', t') => (r, self'', (t ++ t')%list)
          end
        else (Raises e, self', t)
    | done => done
    end.

Definition read {A : Type} (field : ChangeDetector -> A) : method A :=
  fun self => (Returns (field self), self, []).

Definition update (f : ChangeDetector -> ChangeDetector) : method unit :=
  fun self => (Returns tt, f self, []).

Definition emit (ev : event) : method unit :=
  fun self => (Returns tt, self, [ev]).

Definition lift {A : Type} (o : outcome A) : method A :=
  fun self => (o, self, []).

Declare Scope method_scope.
Delimit Scope method_scope with method.
Notation "x <- c ;; k" := (bind c (fun x => k))
  (at level 61, c at next level, right associativity) : method_scope.
Notation "c ;; k" := (bind c (fun _ => k))
  (at level 61, right associativity) : method_scope.
Open Scope method_scope.

Definition any_exception (e : exn) : bool := true.

Definition set_previous_content (v : option string) (d : ChangeDetector) :=
  mkDetector (_url d) (_element_selector d) (_reload_time_ms d) (_notifier d)
    v (_last_request_time d) (_success_count d) (_error_count d).

Definition set_last_request_time (v : option Z) (d : ChangeDetector) :=
  mkDetector (_url d) (_element_selector d) (_reload_time_ms d) (_notifier d)
    (_previous_content d) v (_success_count d) (_error_count d).

(** [self._previous_content = text] *)
Definition assign_previous_content (text : string) : method unit :=
  fun self =>
    (Returns tt, set_previous_content (Some text) self, [StoreContent text]).

Definition incr_success_count (d : ChangeDetector) :=
  mkDetector (_url d) (_element_selector d) (_reload_time_ms d) (_notifier d)
    (_previous_content d) (_last_request_time d) (S (_success_count d))
    (_error_count d).

Definition incr_error_count (d : ChangeDetector) :=
  mkDetector (_url d) (_element_selector d) (_reload_time_ms d) (_notifier d)
    (_previous_content d) (_last_request_time d) (_success_count d)
    (S (_error_count d)).

(** [l[:stop]] *)
Definition take {A : Type} (stop : Z) (l : list A) : list A :=
  if (0 <=? stop)%Z then firstn (Z.to_nat stop) l
  else firstn (Z.to_nat (Z.of_nat (List.length l) + stop)) l.

Definition truncation_marker (max_lines : Z) : string :=
  String LF "" ++ "... (truncated, showing first " ++ str_of_int max_lines
  ++ " lines)".

Section WithLibraries.
Context {P : HtmlParser} {E : SelectorEngine} {M : SequenceMatcher}
  {U : UrlParser}.

(** The list [diff_lines] that [_generate_diff] joins. *)
Definition diff_lines (old_content new_content : string) (max_lines : Z)
    : list string :=
  let old_lines := splitlines old_content in
  let new_lines := splitlines new_content in
  let diff_lines := unified_diff old_lines new_lines "Previous" "Current" "" 2 in
  if (Z.of_nat (List.length diff_lines) >? max_lines)%Z
  then app (take max_lines diff_lines) [truncation_marker max_lines]
  else diff_lines.

Definition _generate_diff (old_content new_content : string) (max_lines : Z)
    : string :=
  PyStr.join "" (diff_lines old_content new_content max_lines).

Definition _extract_hostname (url : string) : option string :=
  match hostname_of url with
  | Returns h => h
  | Raises _ => None
  end.

Definition _fetch_page (env : cycle) : method (option string) :=
  try_except
    (text <- lift (response env) ;;
     ret (Some text))
    any_exception
    (fun e =>
       update incr_error_count ;;
       emit (Log ERROR (FailedToFetchPage e)) ;;
       ret None).

(** [self._notifier.send_notification(...)]: the attempt is seen outside,
    whatever comes of it. *)
Definition send_notification (env : cycle) (n : notification) : method unit :=
  emit (Dispatch n) ;;
  lift (delivery env).

Definition _notify_change (env : cycle) (old_content new_content : string)
    : method unit :=
  notifier <- read _notifier ;;
  if notifier then
    try_except
      (url <- read _url ;;
       let hostname := _extract_hostname url in
       let diff := _generate_diff old_content new_content 30 in
       send_notification env
         (mkNotification "Page Change Detected"
            "The monitored webpage has been updated!" url hostname diff) ;;
       emit (Log INFO NotificationSent))
      any_exception
      (fun e => emit (Log ERROR (FailedToSendNotification e)))
  else emit (Log WARNING NoNotifierConfigured).

(** The [try] block of [_check_for_changes]. *)
Definition extract_and_normalize (html_content selector : string)
    : outcome string :=
  match extract_element html_content selector with
  | Raises e => Raises e
  | Returns element_html => Returns (normalize_html element_html)
  end.

Definition log_counts (l : level) (m : nat -> nat -> log_message)
    : method unit :=
  success <- read _success_count ;;
  errors <- read _error_count ;;
  emit (Log l (m success errors)).

Definition _check_for_changes (env : cycle) : method bool :=
  let current_time := now env in
  last <- read _last_request_time ;;
  match last with
  | Some t => emit (Log DEBUG (TimeSinceLastRequest (current_time - t)))
  | None => ret tt
  end ;;
  update (set_last_request_time (Some current_time)) ;;
  html_content <- _fetch_page env ;;
  match html_content with
  | None => ret false
  | Some html_content =>
      update incr_success_count ;;
      selector <- read _element_selector ;;
      normalized <-
        try_except
          (text <- lift (extract_and_normalize html_content selector) ;;
           ret (Some text))
          is_ValueError
          (fun e =>
             update incr_error_count ;;
             emit (Log ERROR (FailedToExtractElement e)) ;;
             ret None) ;;
      match normalized with
      | None => ret false
      | Some normalized_content =>
          emit (Log DEBUG (NormalizedContent normalized_content)) ;;
          previous <- read _previous_content ;;
          match previous with
          | None =>
              assign_previous_content normalized_content ;;
              log_counts INFO InitialContentStored ;;
              ret false
          | Some old_content =>
              if negb (normalized_content =? old_content) then
                assign_previous_content normalized_content ;;
                log_counts INFO ChangeDetected ;;
                _notify_change env old_content normalized_content ;;
                ret true
              else
                log_counts INFO NoChange ;;
                ret false
          end
      end
  end.

(** The [while True] loop of [run] over the cycles the world offers; the
    sleep between two cycles does not touch the detector and is left out.
    The result lists what each cycle reported. *)
Fixpoint run (envs : list cycle) : method (list bool) :=
  match envs with
  | [] => ret []
  | env :: rest =>
      changed <- _check_for_changes env ;;
      later <- run rest ;;
      ret (changed :: later)
  end.

(** The notification [_notify_change] builds. *)
Definition change_notification (self : ChangeDetector)
    (old_content new_content : string) : notification :=
  mkNotification "Page Change Detected"
    "The monitored webpage has been updated!" (_url self)
    (_extract_hostname (_url self))
    (_generate_diff old_content new_content 30).

(** The log line on the time since the last request. *)
Definition time_log (env : cycle) (self : ChangeDetector) : list event :=
  match _last_request_time self with
  | Some t => [Log DEBUG (TimeSinceLastRequest (now env - t))]
  | None => []
  end.

(** The detector once the page has been fetched. *)
Definition fetched (env : cycle) (self : ChangeDetector) : ChangeDetector :=
  incr_success_count (set_last_request_time (Some (now env)) self).

End WithLibraries.

Definition result_of {A : Type} (r : outcome A * ChangeDetector * list event)
    : outcome A := fst (fst r).
Definition state_of {A : Type} (r : outcome A * ChangeDetector * list event)
    : ChangeDetector := snd (fst r).
Definition trace_of {A : Type} (r : outcome A * ChangeDetector * list event)
    : list event := snd r.

(** The notifications a trace dispatches. *)
Definition dispatched (t : list event) : list notification :=
  flat_map (fun ev => match ev with Dispatch n => [n] | _ => [] end) t.

(** The texts a trace assigns to [_previous_content]. *)
Definition stored (t : list event) : list string :=
  flat_map (fun ev => match ev with StoreContent text => [text] | _ => [] end)
    t.

(** The normalized text a cycle arrives at: none when the request or the
    extraction fails. *)
Definition observed {P : HtmlParser} {E : SelectorEngine}
    (self : ChangeDetector) (env : cycle) : option string :=
  match response env with
  | Returns html_content =>
      match extract_and_normalize html_content (_element_selector self) with
      | Returns text => Some text
      | Raises _ => None
      end
  | Raises _ => None
  end.

End Main.

(** ** Concrete runs *)

Module Runs.
Import Bs4 HtmlParserModel PageTracker Difflib Main.

Definition q : string := String dquote "".

Definition hidden_markup : string :=
  "<input type=" ++ q ++ "hidden" ++ q ++ " value=" ++ q ++ "v" ++ q
  ++ "><p>Visible</p>".

Definition run_extract := @extract_element html_parser simple_selectors.
Definition run_normalize := @normalize_html html_parser.
Definition run_diff := @_generate_diff whole_change_matcher.

(** A URL parser for the runs, one that finds no host name. *)
Definition no_hostname : UrlParser := {| hostname_of := fun _ => Returns None |}.

Definition run_check :=
  @_check_for_changes html_parser simple_selectors whole_change_matcher
    no_hostname.
Definition run_loop :=
  @run html_parser simple_selectors whole_change_matcher no_hostname.

Definition detector : ChangeDetector :=
  mkDetector "https://example.org/" "" 60000 true None None 0 0.

(** The detector with "Hello" as its baseline. *)
Definition hello_detector : ChangeDetector :=
  mkDetector "https://example.org/" "" 60000 true (Some "Hello") (Some 5%Z)
    2 0.

Definition hello_page : string := "<body><p>Hello</p></body>".
Definition goodbye_page : string := "<body><p>Goodbye</p></body>".

Definition hello_cycle : cycle := mkCycle 0 (Returns hello_page) (Returns tt).
Definition goodbye_cycle : cycle :=
  mkCycle 9 (Returns goodbye_page) (Returns tt).

(** The page has changed and the delivery of the notification fails. *)
Definition undelivered_cycle : cycle :=
  mkCycle 9 (Returns goodbye_page) (Raises (ClientError "503")).

Definition failed_cycle : cycle :=
  mkCycle 12 (Raises (HTTPError "500")) (Returns tt).

Definition nested_page : string :=
  "<div id=" ++ q ++ "a" ++ q ++ "><span>x</span></div>".

End Runs.

(** ** notifiers/discord.py *)

(** The pictographs of the embed (U+1F517, U+1F310, U+1F4DD, U+1F514) lie
    outside the characters modelled here and are taken as given strings. *)
Class Pictographs : Type := {
  link_sign : string;
  globe_sign : string;
  memo_sign : string;
  bell_sign : string
}.

Module Discord.

(** One entry of the [fields] list. *)
Record field : Type := mkField {
  name : string;
  value : string;
  inline : bool
}.

(** The embed dictionary; [footer_text] stands for [footer.text]. *)
Record embed : Type := mkEmbed {
  embed_title : string;
  description : string;
  color : Z;
  fields : list field;
  footer_text : string;
  timestamp : string
}.

(** The aiohttp session the notifier refers to, with its [closed] flag. *)
Inductive session : Type := OpenSession | ClosedSession.

Record DiscordNotifier : Type := mkNotifier {
  _webhook_url : string;
  _timezone : string;
  _session : option session
}.

(** What the notifier does to the network, in order. *)
Inductive net_event : Type :=
| SessionCreated
| SessionClosed
| Post (target : string) (embeds : list embed).

(** [DiscordNotifier.__init__] *)
Definition init (webhook_url timezone : string) : outcome DiscordNotifier :=
  if negb (PyStr.truthy webhook_url)
  then Raises (ValueError "Discord webhook URL cannot be empty")
  else Returns (mkNotifier webhook_url timezone None).

(** The [if webhook_url:] guard of [ChangeDetector.__init__] around the
    construction of the notifier. *)
Definition notifier_for (webhook_url timezone : string)
    : outcome (option DiscordNotifier) :=
  if PyStr.truthy webhook_url then
    match init webhook_url timezone with
    | Returns n => Returns (Some n)
    | Raises e => Raises e
    end
  else Returns None.

Definition set_session (v : option session) (self : DiscordNotifier)
    : DiscordNotifier :=
  mkNotifier (_webhook_url self) (_timezone self) v.

(** [_get_session]: a session is created when there is none or when the one
    at hand is closed. *)
Definition _get_session (self : DiscordNotifier)
    : DiscordNotifier * list net_event :=
  match _session self with
  | Some OpenSession => (self, [])
  | _ => (set_session (Some OpenSession) self, [SessionCreated])
  end.

(** [close] *)
Definition close (self : DiscordNotifier) : DiscordNotifier * list net_event :=
  match _session self with
  | Some OpenSession => (set_session None self, [SessionClosed])
  | _ => (self, [])
  end.

(** Truthiness of an optional string: [if hostname], [if diff]. *)
Definition given (s : option string) : bool :=
  match s with Some t => PyStr.truthy t | None => false end.

(** [diff if len(diff) <= 1024 else diff[:1021] + "..."] *)
Definition diff_value (diff : string) : string :=
  if (String.length diff <=? 1024)%nat then diff
  else substring 0 1021 diff ++ "...".

Definition fence_open : string :=
  "```diff" ++ String (ascii_of_nat 10) "".
Definition fence_close : string :=
  String (ascii_of_nat 10) "" ++ "```".

Section WithPictographs.
Context {G : Pictographs}.

(** The [fields] list of [send_notification]. *)
Definition fields_of (url : string) (hostname diff : option string)
    : list field :=
  let fields :=
    [mkField (link_sign ++ " Page URL")
       ("[Click here to view](" ++ url ++ ")") false] in
  let fields :=
    match hostname with
    | Some h =>
        if PyStr.truthy h
        then app fields [mkField (globe_sign ++ " Hostname")
                           ("`" ++ h ++ "`") true]
        else fields
    | None => fields
    end in
  match diff with
  | Some d =>
      if PyStr.truthy d
      then app fields
             [mkField (memo_sign ++ " Changes")
                (fence_open ++ diff_value d ++ fence_close) false]
      else fields
  | None => fields
  end.

(** What the outside does during one delivery: the time stamp in the
    configured zone (which fails for an unknown zone) and the answer to the
    request. *)
Record delivery : Type := mkDelivery {
  clock : outcome string;
  answer : outcome unit
}.

Definition send_notification (env : delivery) (title message url : string)
    (hostname diff : option string) (self : DiscordNotifier)
    : outcome unit * DiscordNotifier * list net_event :=
  match clock env with
  | Raises e => (Raises e, self, [])
  | Returns timestamp =>
      let fields := fields_of url hostname diff in
      let embed :=
        mkEmbed (bell_sign ++ " " ++ title) message 5793266 fields
          "Change Detector" timestamp in
      let '(self', opened) := _get_session self in
      (answer env, self', app opened [Post (_webhook_url self') [embed]])
  end.

(** A use of the notifier by its owner. *)
Inductive operation : Type :=
| Send (env : delivery) (title message url : string)
    (hostname diff : option string)
| Close.

(** A sequence of uses; the owner catches what a delivery raises. *)
Fixpoint perform (ops : list operation) (self : DiscordNotifier)
    : DiscordNotifier * list net_event :=
  match ops with
  | [] => (self, [])
  | op :: rest =>
      let '(self', t) :=
        match op with
        | Send env title message url hostname diff =>
            let '(_, self', t) :=
              send_notification env title message url hostname diff self in
            (self', t)
        | Close => close self
        end in
      let '(self'', t') := perform rest self' in
      (self'', app t t')
  end.

End WithPictographs.

(** The number of open sessions a notifier holds. *)
Definition open_sessions (self : DiscordNotifier) : nat :=
  match _session self with Some OpenSession => 1 | _ => 0 end.

(** The sessions a trace creates and closes. *)
Definition created (t : list net_event) : nat :=
  List.length (filter (fun ev => match ev with SessionCreated => true
                                              | _ => false end) t).
Definition closed (t : list net_event) : nat :=
  List.length (filter (fun ev => match ev with SessionClosed => true
                                              | _ => false end) t).

End Discord.

(** Stand-ins for the pictographs in concrete runs. *)
Definition plain_signs : Pictographs :=
  {| link_sign := "(link)"; globe_sign := "(globe)"; memo_sign := "(memo)";
     bell_sign := "(bell)" |}.

(** ** The comparator as a function of what each cycle observes *)

Module Comparator.
Import Main.

(** The baseline after a cycle that observed [seen]. *)
Definition step_baseline (baseline seen : option string) : option string :=
  match seen with Some text => Some text | None => baseline end.

(** Whether a cycle that observed [seen] reports a change. *)
Definition reports (baseline seen : option string) : bool :=
  match baseline, seen with
  | Some old, Some text => negb (text =? old)
  | _, _ => false
  end.

Fixpoint expected_reports (baseline : option string)
    (seen : list (option string)) : list bool :=
  match seen with
  | [] => []
  | o :: rest =>
      reports baseline o :: expected_reports (step_baseline baseline o) rest
  end.

Definition fetch_succeeded (env : cycle) : bool :=
  match response env with Returns _ => true | Raises _ => false end.

Definition is_none {A : Type} (o : option A) : bool :=
  match o with None => true | Some _ => false end.

Definition count (f : cycle -> bool) (envs : list cycle) : nat :=
  List.length (filter f envs).

Definition count_true (flags : list bool) : nat :=
  List.length (filter (fun b => b) flags).

End Comparator.

(** ** The entries of a diff *)

Module DiffEntries.

(** The entries of a unified diff: the two file headers, hunk headers, and
    lines of either text behind a mark. *)
Definition diff_entry (a b : list string) (e : string) : Prop :=
  e = "--- Previous" \/ e = "+++ Current"
  \/ (exists r1 r2, e = "@@ -" ++ r1 ++ " +" ++ r2 ++ " @@")
  \/ (exists l, In l a /\ (e = " " ++ l \/ e = "-" ++ l))
  \/ (exists l, In l b /\ e = "+" ++ l).

End DiffEntries.

(** ** Changes of a document that carry no visible text *)

Module Churn.
Import Bs4.

(** A node without visible text: a comment, a doctype, a string of one of
    the classes [get_text] passes over, a text string of whitespace, a
    hidden element, an element with nothing but such nodes in it. *)
Fixpoint is_noise (n : node) : bool :=
  match n with
  | Comment _ | Doctype _ | ContainedString _ _ => true
  | NavigableString t => PyStr.all_space t
  | Tag _ _ contents => is_hidden n || forallb is_noise contents
  end.

(** One tree is the other up to: noise put in or taken out; the name and
    the attributes of a tag changed while its contents, the strings with
    their classes included, stay as they are and it is hidden neither before
    nor after; hidden elements replaced by hidden elements; and whitespace
    around a text string. *)
Inductive churn : node -> node -> Prop :=
| churn_insert name attrs before after x :
    is_noise x = true ->
    churn (Tag name attrs (before ++ after)%list)
          (Tag name attrs (before ++ x :: after)%list)
| churn_retag name attrs name' attrs' contents :
    is_hidden (Tag name attrs contents) = false ->
    is_hidden (Tag name' attrs' contents) = false ->
    churn (Tag name attrs contents) (Tag name' attrs' contents)
| churn_hidden h h' :
    is_hidden h = true -> is_hidden h' = true -> churn h h'
| churn_reflow t t' :
    PyStr.strip t = PyStr.strip t' ->
    churn (NavigableString t) (NavigableString t')
| churn_inside name attrs before after c c' :
    churn c c' ->
    churn (Tag name attrs (before ++ c :: after)%list)
          (Tag name attrs (before ++ c' :: after)%list)
| churn_refl n : churn n n
| churn_sym a b : churn a b -> churn b a
| churn_trans a b c : churn a b -> churn b c -> churn a c.

End Churn.

(** * Properties *)

(** ** Strings *)

Module PyStrFacts.
Import PyStr.

Lemma lstrip_all_space s : all_space s = true -> lstrip s = "".
Proof.
  induction s as [|c s IH]; simpl; [reflexivity|].
  destruct (isspace c); simpl; [exact IH|discriminate].
Qed.

Lemma lstrip_empty s : lstrip s = "" -> all_space s = true.
Proof.
  induction s as [|c s IH]; simpl; [reflexivity|].
  destruct (isspace c); simpl; [exact IH|discriminate].
Qed.

Lemma lstrip_head s c t : lstrip s = String c t -> isspace c = false.
Proof.
  induction s as [|d s IH]; simpl; [discriminate|].
  destruct (isspace d) eqn:Hd; [exact IH|].
  intros H. injection H as <- _. exact Hd.
Qed.

Lemma rstrip_empty s : rstrip s = "" -> all_space s = true.
Proof.
  induction s as [|c s IH]; simpl; [reflexivity|].
  destruct (rstrip s) eqn:Hr; [|discriminate].
  destruct (isspace c); [intros _; simpl; auto|discriminate].
Qed.

Lemma rstrip_head c s : isspace c = false ->
  exists t, rstrip (String c s) = String c t.
Proof.
  intros Hc. simpl. destruct (rstrip s); rewrite ?Hc; eexists; reflexivity.
Qed.

(** [s.strip() == ""] exactly when [s] is whitespace throughout. *)
Lemma strip_blank s : strip s = "" <-> all_space s = true.
Proof.
  unfold strip. split.
  - intros H. destruct (lstrip s) as [|c t] eqn:Hl.
    + apply lstrip_empty; exact Hl.
    + destruct (rstrip_head c t (lstrip_head _ _ _ Hl)) as [u Hu].
      rewrite Hu in H. discriminate.
  - intros H. rewrite (lstrip_all_space _ H). reflexivity.
Qed.

Lemma rstrip_last s : ends_with_space (rstrip s) = false.
Proof.
  unfold ends_with_space.
  induction s as [|c s IH]; simpl; [reflexivity|].
  destruct (rstrip s) as [|d r] eqn:Hr.
  - destruct (isspace c) eqn:Hc; simpl; [reflexivity|exact Hc].
  - simpl in *. exact IH.
Qed.

(** A stripped string neither starts nor ends with whitespace. *)
Lemma strip_ends s :
  starts_with_space (strip s) = false /\ ends_with_space (strip s) = false.
Proof.
  unfold strip. split; [|apply rstrip_last].
  unfold starts_with_space.
  destruct (lstrip s) as [|c t] eqn:Hl; [reflexivity|].
  pose proof (lstrip_head _ _ _ Hl) as Hc.
  destruct (rstrip_head c t Hc) as [u ->]. simpl. exact Hc.
Qed.

Lemma rstrip_fixed s : ends_with_space s = false -> rstrip s = s.
Proof.
  unfold ends_with_space.
  induction s as [|c s IH]; simpl; [reflexivity|].
  destruct s as [|d s'].
  - simpl. intros ->. reflexivity.
  - intros H. rewrite (IH H). reflexivity.
Qed.

(** Stripping leaves alone a string with no whitespace at either end. *)
Lemma strip_fixed s :
  starts_with_space s = false -> ends_with_space s = false -> strip s = s.
Proof.
  unfold strip, starts_with_space. intros Hs He.
  destruct s as [|c s']; [reflexivity|].
  simpl in Hs. cbn [lstrip]. rewrite Hs. apply rstrip_fixed; exact He.
Qed.

Lemma first_char_app a b :
  first_char (a ++ b) =
  match first_char a with Some c => Some c | None => first_char b end.
Proof. destruct a; reflexivity. Qed.

Lemma last_char_some c s : exists x, last_char (String c s) = Some x.
Proof.
  revert c. induction s as [|d s IH]; intros c; [exists c; reflexivity|].
  destruct (IH d) as [x Hx]. exists x. exact Hx.
Qed.

Lemma last_char_cons c s :
  last_char (String c s) =
  match last_char s with Some x => Some x | None => Some c end.
Proof.
  destruct s as [|d s]; [reflexivity|].
  destruct (last_char_some d s) as [x Hx].
  change (last_char (String c (String d s))) with (last_char (String d s)).
  rewrite Hx. reflexivity.
Qed.

Lemma last_char_app a b :
  last_char (a ++ b) =
  match last_char b with Some c => Some c | None => last_char a end.
Proof.
  induction a as [|c a IH].
  - simpl. destruct (last_char b); reflexivity.
  - change (String c a ++ b) with (String c (a ++ b)).
    rewrite !last_char_cons, IH.
    destruct (last_char b), (last_char a); reflexivity.
Qed.

Lemma has_space_run_cons c s :
  has_space_run (String c s) =
  (isspace c && starts_with_space s) || has_space_run s.
Proof.
  destruct s as [|d s']; [simpl; rewrite andb_false_r; reflexivity|].
  reflexivity.
Qed.

(** Whitespace runs of a concatenation: those of either part, or one made
    at the seam. *)
Lemma has_space_run_app a b :
  has_space_run (a ++ b) =
  has_space_run a || has_space_run b
  || (ends_with_space a && starts_with_space b).
Proof.
  induction a as [|c a IH]; [cbn; rewrite orb_false_r; reflexivity|].
  change (String c a ++ b) with (String c (a ++ b)).
  rewrite !has_space_run_cons, IH.
  destruct a as [|d a'].
  - cbn. destruct (isspace c), (has_space_run b), (starts_with_space b);
      reflexivity.
  - change (starts_with_space (String d a' ++ b)) with (isspace d).
    change (starts_with_space (String d a')) with (isspace d).
    change (ends_with_space (String c (String d a')))
      with (ends_with_space (String d a')).
    destruct (isspace c), (isspace d), (has_space_run (String d a')),
      (has_space_run b); reflexivity.
Qed.

Lemma truthy_spec s : truthy s = true <-> s <> "".
Proof.
  unfold truthy. destruct (String.eqb_spec s ""); simpl; split; congruence.
Qed.

End PyStrFacts.

(** ** Element extraction *)

Module PageTrackerFacts.
Import Bs4 PageTracker PyStr PyStrFacts.

(** The first element of a list that passes a test. *)
Lemma find_first {A : Type} (f : A -> bool) (l : list A) (x : A) :
  List.find f l = Some x ->
  f x = true /\
  exists before after,
    l = (before ++ x :: after)%list /\ forall y, In y before -> f y = false.
Proof.
  induction l as [|a l IH]; simpl; [discriminate|].
  destruct (f a) eqn:Ha.
  - intros H. injection H as <-. split; [exact Ha|].
    exists [], l. split; [reflexivity|]. intros y [].
  - intros H. destruct (IH H) as (Hx & before & after & -> & Hb).
    split; [exact Hx|]. exists (a :: before), after. split; [reflexivity|].
    intros y [<-|Hy]; auto.
Qed.

Lemma filter_map_swap {A B : Type} (f : A -> B) (p : B -> bool) (l : list A) :
  map f (filter (fun x => p (f x)) l) = filter p (map f l).
Proof.
  induction l as [|a l IH]; simpl; [reflexivity|].
  destruct (p (f a)); simpl; rewrite IH; reflexivity.
Qed.

(** A separator that is not whitespace splits nothing off a blank string. *)
Lemma split_blank sep s :
  isspace sep = false -> all_space s = true -> split sep s = [s].
Proof.
  intros Hsep. induction s as [|c s IH]; simpl; [reflexivity|].
  intros H. apply andb_prop in H as [Hc Hs].
  destruct (Ascii.eqb_spec c sep) as [->|_]; [congruence|].
  rewrite (IH Hs). reflexivity.
Qed.

Section WithLibraries.
Context {P : HtmlParser} {E : SelectorEngine}.

(** The selectors of a path: its segments between bars, trimmed, the empty
    ones dropped. *)
Lemma selectors_of_spec path :
  selectors_of path = filter truthy (map strip (split "|" path)).
Proof. unfold selectors_of. apply filter_map_swap. Qed.

Lemma selectors_of_blank path : strip path = "" -> selectors_of path = [].
Proof.
  intros H. unfold selectors_of.
  rewrite (split_blank "|" path eq_refl (proj1 (strip_blank path) H)).
  simpl. rewrite H. reflexivity.
Qed.

(** The loop of [extract_element] against the chain of matches. *)
Lemma apply_selectors_returns path current selectors el :
  apply_selectors path current selectors = Returns el <->
  descend current selectors = Some el.
Proof.
  revert current. induction selectors as [|s rest IH]; intros current; simpl.
  - split; intros H; injection H as <-; reflexivity.
  - destruct (select_one current s) as [found|]; [apply IH|].
    split; discriminate.
Qed.

Lemma apply_selectors_fails path current selectors e :
  apply_selectors path current selectors = Raises e <->
  exists before selector after reached,
    selectors = (before ++ selector :: after)%list
    /\ descend current before = Some reached
    /\ select_one reached selector = None
    /\ e = ValueError (not_found_message selector path).
Proof.
  revert current. induction selectors as [|s rest IH]; intros current; simpl.
  - split; [discriminate|].
    intros (before & selector & after & reached & H & _).
    destruct before; discriminate.
  - destruct (select_one current s) as [found|] eqn:Hs.
    + rewrite IH. split.
      * intros (before & selector & after & reached & -> & Hd & Hn & ->).
        exists (s :: before), selector, after, reached.
        simpl. rewrite Hs. auto.
      * intros (before & selector & after & reached & Hl & Hd & Hn & ->).
        destruct before as [|s' before]; simpl in *.
        -- injection Hl as <- <-. injection Hd as <-. congruence.
        -- injection Hl as <- ->. rewrite Hs in Hd.
           exists before, selector, after, reached. auto.
    + split.
      * intros H. injection H as <-.
        exists [], s, rest, current. simpl. auto.
      * intros (before & selector & after & reached & Hl & Hd & Hn & ->).
        destruct before as [|s' before]; simpl in *.
        -- injection Hl as <- <-. injection Hd as <-. reflexivity.
        -- injection Hl as <- ->. rewrite Hs in Hd. discriminate.
Qed.

Lemma select_one_none current selector :
  select_one current selector = None <->
  forall d, In d (descendants current) ->
            is_tag d && css_match selector d = false.
Proof.
  unfold select_one. split.
  - intros H d Hd. exact (find_none _ _ H d Hd).
  - intros H.
    destruct (List.find _ (descendants current)) as [x|] eqn:Hf;
      [|reflexivity].
    apply find_some in Hf as [Hin Hx]. rewrite (H x Hin) in Hx. discriminate.
Qed.

Lemma blank_condition path :
  negb (truthy path) || (strip path =? "") = (strip path =? "").
Proof. destruct path; reflexivity. Qed.

(** C4: the selectors of a path are its segments between bars, trimmed,
    with the empty ones dropped; they are applied in order, each to the
    match of the one before, and a match is the first tag below the current
    element, in document order, that the selector matches.  [extract_element]
    raises exactly when some selector of the chain matches nothing while the
    ones before it matched, and the error then names that selector and the
    whole path; it raises rather than returning anything.  On a path that is
    not blank it returns the markup of the element the whole chain reaches. *)
Theorem extract_fails_at_first_unmatched_selector (html path : string) :
  let soup := BeautifulSoup html in
  let selectors := filter truthy (map strip (split "|" path)) in
  (forall e, extract_element html path = Raises e <->
     exists before selector after reached,
       selectors = (before ++ selector :: after)%list
       /\ descend soup before = Some reached
       /\ select_one reached selector = None
       /\ e = ValueError ("Element not found for selector '" ++ selector
                          ++ "' in path '" ++ path ++ "'"))
  /\ (strip path <> "" ->
      forall markup, extract_element html path = Returns markup <->
        exists el, descend soup selectors = Some el /\ markup = decode el)
  /\ (forall current selector found,
        select_one current selector = Some found ->
        is_tag found = true /\ css_match selector found = true
        /\ exists before after,
             descendants current = (before ++ found :: after)%list
             /\ forall d, In d before ->
                          is_tag d && css_match selector d = false)
  /\ (forall current selector,
        select_one current selector = None <->
        forall d, In d (descendants current) ->
                  is_tag d && css_match selector d = false).
Proof.
  cbv zeta. rewrite <- selectors_of_spec.
  split; [|split; [|split]].
  - intros e. unfold extract_element. rewrite blank_condition.
    destruct (String.eqb_spec (strip path) "") as [Hb|Hb].
    + rewrite (selectors_of_blank _ Hb). split.
      * destruct (find_name "body" (BeautifulSoup html)); discriminate.
      * intros (before & selector & after & reached & H & _).
        destruct before; discriminate.
    + pose proof (apply_selectors_fails path (BeautifulSoup html)
                    (selectors_of path) e) as Hf.
      unfold not_found_message in Hf. rewrite <- Hf.
      destruct (apply_selectors path (BeautifulSoup html) (selectors_of path));
        split; intros H; try discriminate; congruence.
  - intros Hb markup. unfold extract_element. rewrite blank_condition.
    destruct (String.eqb_spec (strip path) "") as [Hb'|_]; [contradiction|].
    destruct (apply_selectors path (BeautifulSoup html) (selectors_of path))
      as [el|e] eqn:Ha.
    + apply apply_selectors_returns in Ha. rewrite Ha. split.
      * intros H. injection H as <-. exists el. auto.
      * intros (el' & H & ->). injection H as ->. reflexivity.
    + split; [discriminate|]. intros (el & Hd & _).
      apply apply_selectors_returns with (path := path) in Hd. congruence.
  - intros current selector found H. unfold select_one in H.
    apply find_first in H as (Hf & before & after & Hl & Hb).
    apply andb_prop in Hf as [Ht Hm]. split; [exact Ht|]. split; [exact Hm|].
    exists before, after. split; [exact Hl|exact Hb].
  - apply select_one_none.
Qed.

Lemma decode_body attrs contents :
  decode (Tag "body" attrs contents) =
  "<body" ++ attribute_string attrs ++ ">"
  ++ String.concat "" (map decode contents) ++ "</body>".
Proof.
  cbn [decode]. change ("body" =? ROOT_TAG_NAME) with false. cbv iota.
  destruct contents as [|c l]; [|reflexivity].
  change (can_be_empty_element "body") with false. reflexivity.
Qed.

(** C5: on a path that is empty or whitespace throughout, [extract_element]
    returns the markup of the first [body] tag of the document, written with
    its own start and end tag, and returns the input as it is when the
    document has no [body] tag. *)
Theorem blank_path_returns_body (html path : string) :
  all_space path = true ->
  let soup := BeautifulSoup html in
  (forall body, find_name "body" soup = Some body ->
     extract_element html path = Returns (decode body)
     /\ (exists attrs contents,
           body = Tag "body" attrs contents
           /\ decode body =
              "<body" ++ attribute_string attrs ++ ">"
              ++ String.concat "" (map decode contents) ++ "</body>")
     /\ (exists before after,
           descendants soup = (before ++ body :: after)%list
           /\ forall d, In d before -> tag_name d <> Some "body"))
  /\ ((forall d, In d (descendants soup) -> tag_name d <> Some "body") ->
      extract_element html path = Returns html).
Proof.
  intros Hblank. cbv zeta. apply strip_blank in Hblank.
  unfold extract_element. rewrite blank_condition, Hblank. cbn [String.eqb].
  split.
  - intros body Hf. rewrite Hf. split; [reflexivity|].
    unfold find_name in Hf. apply find_first in Hf as (Hb & before & after & Hl & Hn).
    destruct body as [name attrs contents| | | |]; try discriminate.
    apply String.eqb_eq in Hb. subst name. split.
    + exists attrs, contents. split; [reflexivity|apply decode_body].
    + exists before, after. split; [exact Hl|].
      intros d Hd Hname. specialize (Hn d Hd).
      destruct d; try discriminate. injection Hname as ->. discriminate.
  - intros Hnone.
    destruct (find_name "body" (BeautifulSoup html)) as [body|] eqn:Hf;
      [|reflexivity].
    unfold find_name in Hf. apply find_some in Hf as [Hin Hb].
    destruct body as [name attrs contents| | | |]; try discriminate.
    apply String.eqb_eq in Hb. subst name.
    exfalso. exact (Hnone _ Hin eq_refl).
Qed.

(** C10: on a path that is not blank but whose segments between bars are all
    blank, no selector is left, and [extract_element] returns the markup of
    the whole parsed document: the markup of its top-level nodes, one after
    the other. *)
Theorem bars_only_path_returns_document (html path : string) :
  strip path <> "" ->
  Forall (fun segment => strip segment = "") (split "|" path) ->
  selectors_of path = []
  /\ extract_element html path = Returns (decode (BeautifulSoup html))
  /\ decode (BeautifulSoup html) = String.concat "" (map decode (parse html)).
Proof.
  intros Hb Hsegs.
  assert (Hs : selectors_of path = []).
  { unfold selectors_of. induction Hsegs as [|seg l Hseg _ IH]; simpl;
      [reflexivity|]. rewrite Hseg. simpl. exact IH. }
  split; [exact Hs|]. split; [|reflexivity].
  unfold extract_element. rewrite blank_condition.
  destruct (String.eqb_spec (strip path) "") as [Hb'|_]; [contradiction|].
  rewrite Hs. reflexivity.
Qed.

End WithLibraries.

Import HtmlParserModel.

Lemma extract_fails_at_first_unmatched_selector_witness :
  Runs.run_extract Runs.nested_page "#a|#b"
  = Raises (ValueError "Element not found for selector '#b' in path '#a|#b'").
Proof.
  apply (proj1 (@extract_fails_at_first_unmatched_selector html_parser
                  simple_selectors Runs.nested_page "#a|#b")).
  exists ["#a"], "#b", [],
    (Tag "div" [("id", "a")] [Tag "span" [] [NavigableString "x"]]).
  repeat split.
Defined.

Lemma blank_path_returns_body_witness :
  all_space " " = true
  /\ Runs.run_extract "<html><body><p>Hi</p></body></html>" " "
     = Returns "<body><p>Hi</p></body>".
Proof.
  split; [reflexivity|].
  exact (proj1
    (proj1 (@blank_path_returns_body html_parser simple_selectors
              "<html><body><p>Hi</p></body></html>" " " eq_refl)
       (Tag "body" [] [Tag "p" [] [NavigableString "Hi"]]) eq_refl)).
Defined.

Lemma bars_only_path_returns_document_witness :
  strip "|" <> ""
  /\ Runs.run_extract "<html><body><p>Hi</p></body></html>" "|"
     = Returns "<html><body><p>Hi</p></body></html>".
Proof.
  split; [discriminate|].
  refine (proj1 (proj2
    (@bars_only_path_returns_document html_parser simple_selectors
       "<html><body><p>Hi</p></body></html>" "|" _ _))).
  - discriminate.
  - repeat constructor.
Defined.

End PageTrackerFacts.


(** ** Normalisation *)

Module NormalizeFacts.
Import Bs4 PageTracker PyStr PyStrFacts.

Lemma position_eqb_eq p q : position_eqb p q = true <-> p = q.
Proof.
  revert q. induction p as [|i p IH]; intros [|j q]; simpl;
    try (split; [discriminate|discriminate]); [split; reflexivity|].
  rewrite andb_true_iff, Nat.eqb_eq, IH. split.
  - intros [-> ->]. reflexivity.
  - intros H. injection H as -> ->. auto.
Qed.

Lemma is_detached_In gone p : is_detached gone p = true <-> In p gone.
Proof.
  unfold is_detached. rewrite existsb_exists. split.
  - intros (x & Hx & He). apply position_eqb_eq in He. subst. exact Hx.
  - intros H. exists p. split; [exact H|]. apply position_eqb_eq. reflexivity.
Qed.

Lemma in_flat_mapi {A B : Type} (f : nat -> A -> list B) (l : list A) :
  forall i x,
    In x (flat_mapi f i l) <->
    exists k a, nth_error l k = Some a /\ In x (f (i + k) a).
Proof.
  induction l as [|a l IH]; intros i x; simpl.
  - split; [intros []|]. intros (k & a & H & _). destruct k; discriminate.
  - rewrite in_app_iff, IH. split.
    + intros [H|(k & b & Hk & Hx)].
      * exists 0, a. rewrite Nat.add_0_r. auto.
      * exists (S k), b. rewrite Nat.add_succ_r. auto.
    + intros (k & b & Hk & Hx). destruct k as [|k]; simpl in Hk.
      * injection Hk as <-. rewrite Nat.add_0_r in Hx. auto.
      * right. exists k, b. rewrite Nat.add_succ_r in Hx. auto.
Qed.

Lemma flat_mapi_nth {A B : Type} (f : nat -> A -> list B) (g : A -> list B)
    (l : list A) :
  forall i,
    (forall k a, nth_error l k = Some a -> f (i + k) a = g a) ->
    flat_mapi f i l = flat_map g l.
Proof.
  induction l as [|a l IH]; intros i H; simpl; [reflexivity|].
  rewrite <- (H 0 a eq_refl), Nat.add_0_r. f_equal.
  apply IH. intros k b Hk. rewrite <- (H (S k) b Hk), Nat.add_succ_r.
  reflexivity.
Qed.

Lemma fold_decompose (found : list position) :
  forall s,
    fold_left (fun s p => decompose p s) found s =
    mkSoup (root s) (rev found ++ detached s).
Proof.
  induction found as [|p found IH]; intros s; simpl.
  - destruct s; reflexivity.
  - rewrite IH. simpl. rewrite <- app_assoc. reflexivity.
Qed.

(** What [find_all] finds at or below a node lies at or below it. *)
Lemma matching_at_extends test (n : node) :
  forall here p, In p (matching_at test [] here n) ->
                 exists r, p = (here ++ r)%list.
Proof.
  induction n as [name attrs contents IH| | | |] using node_induction;
    intros here p; simpl; try (intros []).
  rewrite in_app_iff, in_flat_mapi. intros [H|(k & c & Hk & H)].
  - destruct (test (Tag name attrs contents)); [|destruct H].
    destruct H as [<-|[]]. exists []. rewrite app_nil_r. reflexivity.
  - rewrite Forall_forall in IH.
    destruct (IH c (nth_error_In _ _ Hk) _ _ H) as [r ->].
    exists (k :: r). rewrite <- app_assoc. reflexivity.
Qed.

Lemma app_cons_neq {A : Type} (l r : list A) (x : A) : l <> (l ++ x :: r)%list.
Proof.
  intros H. apply (f_equal (@List.length A)) in H.
  rewrite length_app in H. simpl in H. lia.
Qed.

(** With the hidden elements found in a fresh tree all detached, the strings
    still attached below a node are those no hidden element encloses. *)
Lemma strings_at_visible (n : node) :
  forall here gone,
    (forall r, In (here ++ r)%list gone <->
               In (here ++ r)%list (matching_at is_hidden [] here n)) ->
    strings_at gone here n = visible_texts n.
Proof.
  induction n as [name attrs contents IH|t|t|t|c t] using node_induction;
    intros here gone H.
  - assert (Hhere : is_detached gone here = is_hidden (Tag name attrs contents)).
    { apply eq_true_iff_eq. rewrite is_detached_In.
      specialize (H []). rewrite app_nil_r in H. rewrite H. simpl.
      rewrite in_app_iff, in_flat_mapi. split.
      - intros [Hh|(k & c & Hk & Hin)].
        + destruct (is_hidden (Tag name attrs contents)); [reflexivity|].
          destruct Hh.
        + apply matching_at_extends in Hin as [r Hr].
          rewrite <- app_assoc in Hr. simpl in Hr.
          exfalso. exact (app_cons_neq _ _ _ Hr).
      - intros ->. left. left. reflexivity. }
    cbn [strings_at visible_texts]. rewrite Hhere.
    destruct (is_hidden (Tag name attrs contents)) eqn:Hh; [reflexivity|].
    apply flat_mapi_nth. intros k c Hk. simpl.
    rewrite Forall_forall in IH. apply (IH c (nth_error_In _ _ Hk)).
    intros r. rewrite <- app_assoc. simpl. rewrite H.
    cbn [matching_at]. cbn [is_detached existsb]. rewrite Hh. simpl.
    rewrite in_flat_mapi. split.
    + intros (k' & c' & Hk' & Hin). simpl in Hin.
      destruct (matching_at_extends _ _ _ _ Hin) as [r' Hr].
      rewrite <- app_assoc in Hr. apply app_inv_head in Hr.
      simpl in Hr. injection Hr as -> _.
      rewrite Hk in Hk'. injection Hk' as <-. exact Hin.
    + intros Hin. exists k, c. split; [exact Hk|]. exact Hin.
  - cbn [strings_at visible_texts]. simpl.
    assert (Hhere : is_detached gone here = false).
    { apply not_true_is_false. rewrite is_detached_In.
      specialize (H []). rewrite app_nil_r in H. rewrite H. simpl. tauto. }
    rewrite Hhere. reflexivity.
  - cbn [strings_at visible_texts]. destruct (is_detached gone here);
      reflexivity.
  - cbn [strings_at visible_texts]. destruct (is_detached gone here);
      reflexivity.
  - cbn [strings_at visible_texts]. destruct (is_detached gone here);
      reflexivity.
Qed.

(** The visible strings are the strings of the pruned tree. *)
Lemma visible_texts_prune (n : node) :
  visible_texts n = if is_hidden n then [] else texts (prune n).
Proof.
  induction n as [name attrs contents IH|t|t|t|c t] using node_induction;
    try reflexivity.
  cbn [visible_texts prune texts].
  destruct (is_hidden (Tag name attrs contents)); [reflexivity|].
  induction IH as [|c l Hc _ IHl]; simpl; [reflexivity|].
  rewrite Hc, IHl. destruct (is_hidden c); simpl;
    rewrite ?app_nil_r; reflexivity.
Qed.

Lemma is_hidden_prune (n : node) : is_hidden (prune n) = is_hidden n.
Proof. destruct n; reflexivity. Qed.

(** Nothing below a pruned node is hidden. *)
Lemma prune_no_hidden (n : node) :
  forall d, In d (descendants (prune n)) -> is_hidden d = false.
Proof.
  induction n as [name attrs contents IH|t|t|t|c t] using node_induction;
    intros d; simpl; try (intros []).
  rewrite in_flat_map. intros (c' & Hc' & Hd).
  apply in_flat_map in Hc' as (c & Hc & Hin).
  destruct (is_hidden c) eqn:Hh; [destruct Hin|].
  destruct Hin as [<-|[]]. rewrite Forall_forall in IH.
  destruct Hd as [<-|Hd].
  - rewrite is_hidden_prune. exact Hh.
  - exact (IH c Hc d Hd).
Qed.

Lemma stripped_strings_trimmed l : Forall trimmed (stripped_strings l).
Proof.
  unfold stripped_strings. apply Forall_forall. intros p Hp.
  apply filter_In in Hp as [Hin Ht]. apply in_map_iff in Hin as (x & <- & _).
  split; [apply truthy_spec; exact Ht|apply strip_ends].
Qed.

Lemma trimmed_first p : trimmed p ->
  exists c, first_char p = Some c /\ isspace c = false.
Proof.
  intros (Hne & Hs & _). unfold starts_with_space in Hs.
  destruct p as [|c p']; [contradiction|]. exists c. auto.
Qed.

Lemma trimmed_last p : trimmed p ->
  exists c, last_char p = Some c /\ isspace c = false.
Proof.
  intros (Hne & _ & He). unfold ends_with_space in He.
  destruct (last_char p) as [c|] eqn:Hl; [exists c; auto|].
  destruct p as [|c p']; [contradiction|]. exfalso.
  clear -Hl. revert c Hl. induction p' as [|d p' IH]; intros c Hl;
    [discriminate|]. exact (IH d Hl).
Qed.

Lemma app_not_empty a b : a <> "" -> a ++ b <> "".
Proof. destruct a; [contradiction|discriminate]. Qed.

Lemma join_cons_trimmed l : forall p,
  Forall trimmed (p :: l) ->
  trimmed (String.concat " " (p :: l))
  /\ has_space_run (String.concat " " (p :: l))
     = existsb has_space_run (p :: l).
Proof.
  induction l as [|p' l' IH]; intros p H;
    inversion H as [|? ? Hp Hl]; subst.
  - cbn [String.concat existsb]. rewrite orb_false_r. auto.
  - destruct (IH p' Hl) as (Hrest & Hrun).
    change (String.concat " " (p :: p' :: l'))
      with (p ++ " " ++ String.concat " " (p' :: l')).
    set (rest := String.concat " " (p' :: l')) in *.
    destruct (trimmed_first p Hp) as (c & Hc & Hcs).
    destruct (trimmed_last p Hp) as (d & Hd & Hds).
    destruct (trimmed_first rest Hrest) as (e & He & Hes).
    destruct (trimmed_last rest Hrest) as (f & Hf & Hfs).
    split; [split; [|split]|].
    + apply app_not_empty. exact (proj1 Hp).
    + unfold starts_with_space. rewrite first_char_app, Hc. exact Hcs.
    + unfold ends_with_space. rewrite !last_char_app, Hf. exact Hfs.
    + rewrite !has_space_run_app, Hrun.
      unfold ends_with_space, starts_with_space.
      rewrite Hd, Hds, He, Hes. cbn.
      rewrite !andb_false_r, !orb_false_r.
      destruct (has_space_run p); reflexivity.
Qed.

(** Trimmed pieces joined by one space: no whitespace at either end, and no
    whitespace run but those inside a piece. *)
Lemma join_trimmed pieces :
  Forall trimmed pieces ->
  starts_with_space (join " " pieces) = false
  /\ ends_with_space (join " " pieces) = false
  /\ has_space_run (join " " pieces) = existsb has_space_run pieces.
Proof.
  unfold join. destruct pieces as [|p l]; [repeat split|].
  intros H. destruct (join_cons_trimmed l p H) as ((_ & Hs & He) & Hr). auto.
Qed.

Section WithLibraries.
Context {P : HtmlParser}.

(** [normalize_html] in one equation: the visible strings of the parsed
    markup, each stripped, the empty ones dropped, joined by one space. *)
Lemma normalize_html_visible html :
  normalize_html html =
  join " " (stripped_strings (visible_texts (BeautifulSoup html))).
Proof.
  unfold normalize_html. rewrite fold_decompose. unfold get_text.
  cbn [root detached]. f_equal. f_equal.
  apply strings_at_visible. intros r. simpl.
  rewrite app_nil_r, <- in_rev. reflexivity.
Qed.

(** Text that the parser gives back as one string is left as it is by a
    second normalisation. *)
Lemma normalize_plain_text (text : string) :
  text = "" \/ trimmed text ->
  parse text = (if text =? "" then [] else [NavigableString text]) ->
  normalize_html text = text.
Proof.
  intros Ht Hp. rewrite normalize_html_visible. unfold BeautifulSoup.
  rewrite Hp. destruct (String.eqb_spec text "") as [->|Hne]; [reflexivity|].
  destruct Ht as [->|(_ & Hs & He)]; [contradiction|].
  change (visible_texts (Tag ROOT_TAG_NAME [] [NavigableString text]))
    with [text].
  unfold stripped_strings. cbn [map filter].
  rewrite (strip_fixed _ Hs He).
  rewrite (proj2 (truthy_spec text) Hne). reflexivity.
Qed.

Lemma normalize_html_trimmed html :
  normalize_html html = "" \/ trimmed (normalize_html html).
Proof.
  rewrite normalize_html_visible. unfold join.
  pose proof (stripped_strings_trimmed (visible_texts (BeautifulSoup html)))
    as H.
  destruct (stripped_strings (visible_texts (BeautifulSoup html))) as [|p l];
    [left; reflexivity|].
  right. exact (proj1 (join_cons_trimmed l p H)).
Qed.

(** C7 (as amended): the normalized text is the visible text strings, each
    stripped, the empty ones dropped, joined by single spaces; it has no
    whitespace at either end, and it has two whitespace characters in a row
    exactly when one of the stripped strings has them inside. *)
Theorem normalized_text_is_trimmed (html : string) :
  let pieces :=
    filter truthy (map strip (visible_texts (BeautifulSoup html))) in
  normalize_html html = join " " pieces
  /\ Forall (fun p => p <> "" /\ starts_with_space p = false
                     /\ ends_with_space p = false) pieces
  /\ starts_with_space (normalize_html html) = false
  /\ ends_with_space (normalize_html html) = false
  /\ has_space_run (normalize_html html) = existsb has_space_run pieces.
Proof.
  cbv zeta. rewrite normalize_html_visible.
  pose proof (stripped_strings_trimmed (visible_texts (BeautifulSoup html)))
    as H.
  destruct (join_trimmed _ H) as (Hs & He & Hr).
  split; [reflexivity|]. split; [exact H|]. auto.
Qed.

(** C8 (as amended): when the normalized text of [html] parses back as a
    single text string holding that same text (as nothing when it is empty),
    normalising it again gives the same text. *)
Theorem normalize_idempotent_on_plain_text (html : string) :
  parse (normalize_html html) =
    (if normalize_html html =? "" then []
     else [NavigableString (normalize_html html)]) ->
  normalize_html (normalize_html html) = normalize_html html.
Proof.
  intros H. apply normalize_plain_text; [|exact H].
  apply normalize_html_trimmed.
Qed.

End WithLibraries.

(** *** The executable parser on plain text *)

Import HtmlParserModel.

Lemma lex_plain_text (s : string) : forall raw,
  contains_char "<" s = false ->
  lex (MText raw) 0 s = data_token (raw ++ s).
Proof.
  induction s as [|c s IH]; intros raw H.
  - simpl. replace (raw ++ "") with raw; [reflexivity|].
    clear. induction raw; simpl; congruence.
  - cbn [contains_char] in H. apply orb_false_elim in H as [Hc Hs].
    cbn [lex]. rewrite (Ascii.eqb_sym c "<"), Hc. rewrite (IH _ Hs).
    unfold snoc. f_equal. clear.
    induction raw; simpl; congruence.
Qed.

Lemma unescape_plain_text (s : string) :
  contains_char "&" s = false -> unescape s = s.
Proof.
  unfold unescape. induction s as [|c s IH]; intros H; [reflexivity|].
  cbn [contains_char] in H. apply orb_false_elim in H as [Hc Hs].
  cbn [unescape_from]. rewrite (Ascii.eqb_sym c "&"), Hc, (IH Hs).
  reflexivity.
Qed.

Lemma space_is_space c : is_ascii_space c = true -> isspace c = true.
Proof.
  unfold is_ascii_space, isspace. intros H.
  repeat (apply orb_prop in H as [H|H]); apply Nat.eqb_eq in H; rewrite H;
    reflexivity.
Qed.

(** Trimmed text with no [<] and no [&] parses as one text string. *)
Lemma html_parser_plain_text (text : string) :
  trimmed text ->
  contains_char "<" text = false -> contains_char "&" text = false ->
  @parse html_parser text = [NavigableString text].
Proof.
  intros (Hne & Hs & _) Hlt Hamp. cbn [parse html_parser].
  rewrite (lex_plain_text _ "" Hlt). cbn [append]. unfold data_token.
  destruct (String.eqb_spec text "") as [|_]; [contradiction|].
  rewrite (unescape_plain_text _ Hamp).
  unfold build. cbn [fold_left handle append_child close_all app].
  unfold end_data. destruct text as [|c t]; [contradiction|].
  unfold starts_with_space in Hs. cbn in Hs. cbn [all_chars].
  destruct (is_ascii_space c) eqn:Hc;
    [rewrite (space_is_space _ Hc) in Hs; discriminate|].
  reflexivity.
Qed.

(** On the executable parser, normalisation is idempotent whenever the
    normalized text has neither [<] nor [&] in it. *)
Lemma normalize_idempotent_without_markup (html : string) :
  let text := @normalize_html html_parser html in
  contains_char "<" text = false -> contains_char "&" text = false ->
  @normalize_html html_parser text = text.
Proof.
  cbv zeta. intros Hlt Hamp.
  destruct (@normalize_html_trimmed html_parser html) as [He|Ht].
  - rewrite He. reflexivity.
  - apply normalize_plain_text; [right; exact Ht|].
    destruct (String.eqb_spec (@normalize_html html_parser html) "") as [He|_];
      [destruct Ht as (Hne & _); contradiction|].
    apply html_parser_plain_text; assumption.
Qed.

(** C6: normalisation works on the parsed tree with every element whose
    [type] attribute is the string [hidden] taken out, subtree and all: its
    result is made of the text strings of that pruned tree, which has no
    such element left and whose strings are the strings of the parsed tree
    that no such element encloses.  The markup of a hidden input followed by
    a paragraph reading Visible normalizes to Visible. *)
Theorem hidden_elements_removed :
  (forall (P : HtmlParser) (html : string),
     let pruned := prune (BeautifulSoup html) in
     normalize_html html = join " " (stripped_strings (texts pruned))
     /\ (forall d, In d (descendants pruned) -> is_hidden d = false)
     /\ texts pruned = visible_texts (BeautifulSoup html))
  /\ @parse html_parser Runs.hidden_markup =
       [Tag "input" [("type", "hidden"); ("value", "v")] [];
        Tag "p" [] [NavigableString "Visible"]]
  /\ @normalize_html html_parser Runs.hidden_markup = "Visible".
Proof.
  split; [|split; reflexivity].
  intros P html. cbv zeta.
  assert (Hv : texts (prune (BeautifulSoup html))
               = visible_texts (BeautifulSoup html)).
  { rewrite visible_texts_prune. reflexivity. }
  split; [|split].
  - rewrite normalize_html_visible, Hv. reflexivity.
  - apply prune_no_hidden.
  - exact Hv.
Qed.

Lemma normalize_idempotent_on_plain_text_witness :
  @normalize_html html_parser (@normalize_html html_parser "<p> Hello </p>")
  = @normalize_html html_parser "<p> Hello </p>".
Proof.
  apply (@normalize_idempotent_on_plain_text html_parser "<p> Hello </p>").
  reflexivity.
Defined.

(** C7, the claim as it stands fails: whitespace inside a text string is
    kept. *)
Lemma normalized_text_keeps_inner_whitespace :
  @normalize_html html_parser "<p>a  b</p>" = "a  b"
  /\ has_space_run (@normalize_html html_parser "<p>a  b</p>") = true.
Proof. split; reflexivity. Qed.

(** C8, the claim as it stands fails: text that reads as markup once its
    character references are resolved is parsed as markup the second
    time. *)
Lemma normalize_not_idempotent :
  @normalize_html html_parser "&lt;b&gt;hi&lt;/b&gt;" = "<b>hi</b>"
  /\ @normalize_html html_parser
       (@normalize_html html_parser "&lt;b&gt;hi&lt;/b&gt;") = "hi"
  /\ @normalize_html html_parser
       (@normalize_html html_parser "&lt;b&gt;hi&lt;/b&gt;")
     <> @normalize_html html_parser "&lt;b&gt;hi&lt;/b&gt;".
Proof. split; [reflexivity|]. split; [reflexivity|discriminate]. Qed.

End NormalizeFacts.

(** ** Diff generation *)

Module DifflibFacts.
Import Difflib Main PyStr.

Lemma no_break_app a b : no_break (a ++ b) = no_break a && no_break b.
Proof.
  induction a as [|c a IH]; [reflexivity|].
  simpl. rewrite IH, andb_assoc. reflexivity.
Qed.

Lemma breaks_no_break_app a b : no_break a = true -> breaks (a ++ b) = breaks b.
Proof.
  induction a as [|c a IH]; [reflexivity|].
  cbn [no_break]. intros H. apply andb_prop in H as [Hc Ha].
  change (String c a ++ b) with (String c (a ++ b)). cbn [breaks].
  destruct (is_linebreak c); [discriminate|]. exact (IH Ha).
Qed.

Lemma breaks_no_break s : no_break s = true -> breaks s = 0.
Proof.
  intros H. pose proof (breaks_no_break_app s "" H) as H'.
  replace (s ++ "") with s in H'; [exact H'|].
  clear. induction s; simpl; congruence.
Qed.

Lemma breaks_cons c r :
  breaks (String c r) =
  if is_linebreak c then
    if Ascii.eqb c CR then
      match r with
      | String d _ => if Ascii.eqb d LF then breaks r else S (breaks r)
      | EmptyString => 1
      end
    else S (breaks r)
  else breaks r.
Proof. reflexivity. Qed.

(** Joining two texts makes no new line boundary. *)
Lemma breaks_app_le a b : breaks (a ++ b) <= breaks a + breaks b.
Proof.
  induction a as [|c a IH]; [simpl; lia|].
  change (String c a ++ b) with (String c (a ++ b)).
  rewrite (breaks_cons c (a ++ b)), (breaks_cons c a).
  destruct (is_linebreak c); [|exact IH].
  destruct (Ascii.eqb c CR); [|lia].
  destruct a as [|d a'].
  - change ("" ++ b) with b. destruct b as [|e b']; [simpl; lia|].
    destruct (Ascii.eqb e LF); lia.
  - change (String d a' ++ b) with (String d (a' ++ b)) in *.
    cbv beta match. destruct (Ascii.eqb d LF); lia.
Qed.

Lemma breaks_concat (l : list string) :
  breaks (String.concat "" l) <= list_sum (map breaks l).
Proof.
  induction l as [|x l IH]; [simpl; lia|].
  destruct l as [|y l'].
  - simpl. lia.
  - change (String.concat "" (x :: y :: l'))
      with (x ++ String.concat "" (y :: l')).
    pose proof (breaks_app_le x (String.concat "" (y :: l'))).
    cbn [map list_sum fold_right] in *. lia.
Qed.

Lemma splitlines_from_cons line c r :
  splitlines_from line (String c r) =
  if is_linebreak c then
    if Ascii.eqb c CR then
      match r with
      | String d r' =>
          if Ascii.eqb d LF
          then (line ++ String c (String d "")) :: splitlines_from "" r'
          else (line ++ String c "") :: splitlines_from "" r
      | EmptyString => [line ++ String c ""]
      end
    else (line ++ String c "") :: splitlines_from "" r
  else splitlines_from (line ++ String c "") r.
Proof. reflexivity. Qed.

(** A text has at most one line more than it has line boundaries. *)
Lemma splitlines_from_length (s : string) :
  (forall line, List.length (splitlines_from line s) <= breaks s + 1)
  /\ (forall c line,
        List.length (splitlines_from line (String c s))
        <= breaks (String c s) + 1).
Proof.
  induction s as [|d r [IH1 IH2]].
  - split.
    + intros line. simpl. destruct (line =? ""); simpl; lia.
    + intros c line. rewrite splitlines_from_cons, breaks_cons.
      destruct (is_linebreak c).
      * destruct (Ascii.eqb c CR); simpl; lia.
      * simpl. destruct (line ++ String c "" =? ""); simpl; lia.
  - split; [intros line; apply IH2|].
    intros c line. rewrite splitlines_from_cons, (breaks_cons c).
    destruct (is_linebreak c); [|apply IH2].
    destruct (Ascii.eqb c CR).
    + destruct (Ascii.eqb d LF) eqn:Hd.
      * apply Ascii.eqb_eq in Hd. subst d.
        change (breaks (String LF r)) with (S (breaks r)).
        cbn [List.length]. specialize (IH1 ""). lia.
      * cbn [List.length]. specialize (IH2 d ""). lia.
    + cbn [List.length]. specialize (IH2 d ""). lia.
Qed.

Lemma line_count_le_breaks (text : string) : line_count text <= breaks text + 1.
Proof. apply (proj1 (splitlines_from_length text)). Qed.

Lemma breaks_one_break line c :
  no_break line = true -> breaks (line ++ String c "") <= 1.
Proof.
  intros H. rewrite (breaks_no_break_app _ _ H). simpl.
  destruct (is_linebreak c); [destruct (Ascii.eqb c CR)|]; lia.
Qed.

(** A line of [splitlines(keepends=True)] holds one line boundary at
    most. *)
Lemma splitlines_from_breaks (s : string) :
  (forall line, no_break line = true ->
     Forall (fun l => breaks l <= 1) (splitlines_from line s))
  /\ (forall c line, no_break line = true ->
        Forall (fun l => breaks l <= 1) (splitlines_from line (String c s))).
Proof.
  assert (Hacc : forall line c, no_break line = true ->
            is_linebreak c = false -> no_break (line ++ String c "") = true).
  { intros line c Hl Hc. rewrite no_break_app, Hl. simpl. rewrite Hc.
    reflexivity. }
  induction s as [|d r [IH1 IH2]].
  - split.
    + intros line Hl. simpl. destruct (line =? ""); constructor; [|constructor].
      rewrite (breaks_no_break _ Hl). lia.
    + intros c line Hl. rewrite splitlines_from_cons.
      destruct (is_linebreak c) eqn:Hc.
      * destruct (Ascii.eqb c CR); (constructor; [|constructor]);
          apply breaks_one_break; exact Hl.
      * simpl. pose proof (Hacc _ _ Hl Hc) as Hn.
        destruct (line ++ String c "" =? ""); constructor; [|constructor].
        rewrite (breaks_no_break _ Hn). lia.
  - split; [intros line; apply IH2|].
    intros c line Hl. rewrite splitlines_from_cons.
    destruct (is_linebreak c) eqn:Hc; [|apply (IH2 _ _ (Hacc _ _ Hl Hc))].
    destruct (Ascii.eqb c CR) eqn:Hcr.
    + destruct (Ascii.eqb d LF) eqn:Hd.
      * constructor; [|apply IH1; reflexivity].
        rewrite (breaks_no_break_app _ _ Hl).
        apply Ascii.eqb_eq in Hcr, Hd. subst. cbv. lia.
      * constructor; [apply breaks_one_break; exact Hl|].
        apply IH2. reflexivity.
    + constructor; [apply breaks_one_break; exact Hl|].
      apply IH2. reflexivity.
Qed.

Lemma splitlines_breaks (text : string) :
  Forall (fun l => breaks l <= 1) (splitlines text).
Proof. apply (proj1 (splitlines_from_breaks text)). reflexivity. Qed.

Lemma str_of_uint_no_break (u : Decimal.uint) :
  no_break (NilEmpty.string_of_uint u) = true.
Proof. induction u; simpl; auto. Qed.

Lemma str_of_int_no_break (n : Z) : no_break (str_of_int n) = true.
Proof.
  unfold str_of_int. destruct (Z.to_int n); simpl; apply str_of_uint_no_break.
Qed.

Lemma format_range_no_break start stop :
  no_break (_format_range_unified start stop) = true.
Proof.
  unfold _format_range_unified.
  destruct (Z.of_nat stop - Z.of_nat start =? 1)%Z;
    [apply str_of_int_no_break|].
  rewrite !no_break_app, !str_of_int_no_break. reflexivity.
Qed.

Lemma truncation_marker_breaks (max_lines : Z) :
  breaks (truncation_marker max_lines) = 1.
Proof.
  unfold truncation_marker.
  change (breaks (String LF ("... (truncated, showing first "
                             ++ str_of_int max_lines ++ " lines)")) = 1).
  cbn [breaks]. change (is_linebreak LF) with true.
  change (Ascii.eqb LF CR) with false. cbv iota.
  rewrite breaks_no_break; [reflexivity|].
  rewrite !no_break_app, str_of_int_no_break. reflexivity.
Qed.

Lemma in_firstn {A : Type} (n : nat) (l : list A) (x : A) :
  In x (firstn n l) -> In x l.
Proof.
  revert l. induction n as [|n IH]; intros [|a l]; simpl; try tauto.
  intros [H|H]; [left; exact H|right; exact (IH _ H)].
Qed.

Lemma in_skipn {A : Type} (n : nat) (l : list A) (x : A) :
  In x (skipn n l) -> In x l.
Proof.
  revert l. induction n as [|n IH]; intros [|a l]; simpl; try tauto.
  intros H. right. exact (IH _ H).
Qed.

Lemma in_slice {A : Type} (l : list A) (i j : nat) (x : A) :
  In x (slice l i j) -> In x l.
Proof.
  unfold slice. intros H. apply in_firstn in H. apply in_skipn in H. exact H.
Qed.

Lemma marked_ok (mark : ascii) (lines : list string) :
  is_linebreak mark = false ->
  Forall (fun l => breaks l <= 1) lines ->
  Forall entry_ok (marked (String mark "") lines).
Proof.
  intros Hm H. unfold marked. apply Forall_forall. intros e He.
  apply in_map_iff in He as (l & <- & Hl).
  rewrite Forall_forall in H. split.
  - cbn. intros E. injection E as ->. discriminate.
  - change (String mark "" ++ l) with (String mark l). cbn [breaks].
    rewrite Hm. exact (H l Hl).
Qed.

Lemma Forall_slice {A : Type} (Q : A -> Prop) (l : list A) (i j : nat) :
  Forall Q l -> Forall Q (slice l i j).
Proof.
  intros H. rewrite Forall_forall in *. intros x Hx.
  exact (H x (in_slice _ _ _ _ Hx)).
Qed.

Section WithMatcher.
Context {M : SequenceMatcher}.

Lemma group_lines_ok a b group :
  Forall (fun l => breaks l <= 1) a -> Forall (fun l => breaks l <= 1) b ->
  Forall entry_ok (group_lines a b group).
Proof.
  intros Ha Hb. unfold group_lines. apply Forall_flat_map.
  apply Forall_forall. intros op _.
  destruct (op_tag op); try apply Forall_app; repeat split;
    apply marked_ok; try reflexivity; apply Forall_slice; assumption.
Qed.

Lemma hunk_ok a b group :
  Forall (fun l => breaks l <= 1) a -> Forall (fun l => breaks l <= 1) b ->
  Forall entry_ok (hunk a b "" group).
Proof.
  intros Ha Hb. unfold hunk. constructor; [|apply group_lines_ok; assumption].
  split; [discriminate|].
  rewrite breaks_no_break; [lia|].
  rewrite !no_break_app, !format_range_no_break. reflexivity.
Qed.

(** The entries of a unified diff with an empty line terminator: none, or
    two file headers with no line boundary followed by the hunks. *)
Lemma unified_diff_shape a b n :
  Forall (fun l => breaks l <= 1) a -> Forall (fun l => breaks l <= 1) b ->
  let full := unified_diff a b "Previous" "Current" "" n in
  Forall entry_ok full
  /\ (full = [] \/ exists rest, full = "--- Previous" :: rest).
Proof.
  intros Ha Hb. cbv zeta. unfold unified_diff.
  destruct (get_grouped_opcodes a b n) as [|g gs]; [split; [constructor|auto]|].
  split; [|right; eexists; reflexivity].
  constructor; [split; [discriminate|cbv; lia]|].
  constructor; [split; [discriminate|cbv; lia]|].
  apply Forall_flat_map. apply Forall_forall. intros g' _.
  apply hunk_ok; assumption.
Qed.

End WithMatcher.

Lemma sum_breaks_le (l : list string) :
  Forall entry_ok l -> list_sum (map breaks l) <= List.length l.
Proof.
  induction 1 as [|e l [_ He] _ IH]; simpl; lia.
Qed.

Lemma Forall_firstn {A : Type} (Q : A -> Prop) (n : nat) (l : list A) :
  Forall Q l -> Forall Q (firstn n l).
Proof.
  intros H. rewrite Forall_forall in *. intros x Hx.
  exact (H x (in_firstn _ _ _ Hx)).
Qed.

Lemma take_nonneg {A : Type} (stop : Z) (l : list A) :
  (0 <= stop)%Z -> take stop l = firstn (Z.to_nat stop) l.
Proof.
  intros H. unfold take. destruct (Z.leb_spec 0 stop); [reflexivity|lia].
Qed.

Lemma list_sum_breaks_app (l k : list string) :
  list_sum (map breaks (l ++ k)) =
  list_sum (map breaks l) + list_sum (map breaks k).
Proof. rewrite map_app, list_sum_app. reflexivity. Qed.

(** C9 (as amended): for [max_lines] of zero or more, [_generate_diff]
    joins at most [max_lines + 1] entries: the whole unified diff, without
    the marker, when that has [max_lines] entries or fewer, and otherwise its
    first [max_lines] entries followed by the marker, which states
    [max_lines]; for [max_lines] of one or more the returned text has at
    most [max_lines + 1] lines. *)
Theorem diff_is_bounded {M : SequenceMatcher}
    (old_content new_content : string) (max_lines : Z) :
  (0 <= max_lines)%Z ->
  let full :=
    unified_diff (splitlines old_content) (splitlines new_content)
      "Previous" "Current" "" 2 in
  let shown := diff_lines old_content new_content max_lines in
  _generate_diff old_content new_content max_lines = join "" shown
  /\ (Z.of_nat (List.length shown) <= max_lines + 1)%Z
  /\ ((Z.of_nat (List.length full) <= max_lines)%Z ->
      shown = full /\ ~ In (truncation_marker max_lines) shown)
  /\ ((Z.of_nat (List.length full) > max_lines)%Z ->
      shown = (firstn (Z.to_nat max_lines) full
               ++ [truncation_marker max_lines])%list
      /\ List.length (firstn (Z.to_nat max_lines) full) = Z.to_nat max_lines)
  /\ truncation_marker max_lines =
       String LF "" ++ "... (truncated, showing first "
       ++ str_of_int max_lines ++ " lines)"
  /\ ((1 <= max_lines)%Z ->
      (Z.of_nat (line_count (_generate_diff old_content new_content max_lines))
       <= max_lines + 1)%Z).
Proof.
  intros Hm. cbv zeta.
  destruct (unified_diff_shape (splitlines old_content)
              (splitlines new_content) 2 (splitlines_breaks old_content)
              (splitlines_breaks new_content)) as (Hok & Hshape).
  unfold _generate_diff, diff_lines.
  set (full := unified_diff (splitlines old_content)
                 (splitlines new_content) "Previous" "Current" "" 2) in *.
  rewrite (take_nonneg _ _ Hm).
  destruct (Z.of_nat (List.length full) >? max_lines)%Z eqn:Hgt.
  - apply Z.gtb_lt in Hgt.
    assert (Hlen : List.length (firstn (Z.to_nat max_lines) full)
                   = Z.to_nat max_lines) by (rewrite length_firstn; lia).
    split; [reflexivity|]. split; [rewrite length_app, Hlen; simpl; lia|].
    split; [lia|]. split; [auto|]. split; [reflexivity|].
    intros H1.
    pose proof (line_count_le_breaks
      (join "" (firstn (Z.to_nat max_lines) full
                ++ [truncation_marker max_lines])%list)) as Hl.
    pose proof (breaks_concat
      (firstn (Z.to_nat max_lines) full
       ++ [truncation_marker max_lines])%list) as Hb.
    rewrite list_sum_breaks_app in Hb. cbn [map list_sum fold_right] in Hb.
    rewrite truncation_marker_breaks in Hb.
    destruct Hshape as [Hnil|(rest & Hcons)];
      [rewrite Hnil in Hgt; simpl in Hgt; lia|].
    assert (Hsum : list_sum (map breaks (firstn (Z.to_nat max_lines) full))
                   <= Z.to_nat max_lines - 1).
    { rewrite Hcons in *. destruct (Z.to_nat max_lines) as [|k] eqn:Hk; [lia|].
      cbn [firstn map list_sum fold_right].
      change (breaks "--- Previous") with 0.
      inversion Hok as [|? ? _ Hrest]; subst.
      pose proof (sum_breaks_le _ (Forall_firstn _ k _ Hrest)) as Hs.
      rewrite length_firstn in Hs. unfold list_sum in *. lia. }
    unfold join in *. lia.
  - assert (Hle : (Z.of_nat (List.length full) <= max_lines)%Z).
    { destruct (Z.gtb_spec (Z.of_nat (List.length full)) max_lines);
        [discriminate|lia]. }
    split; [reflexivity|]. split; [lia|]. split.
    + intros _. split; [reflexivity|]. intros Hin.
      rewrite Forall_forall in Hok. destruct (Hok _ Hin) as [Hfirst _].
      apply Hfirst. reflexivity.
    + split; [lia|]. split; [reflexivity|]. intros _.
      pose proof (line_count_le_breaks (join "" full)) as Hl.
      pose proof (breaks_concat full) as Hb.
      pose proof (sum_breaks_le _ Hok) as Hs.
      unfold join in *. lia.
Qed.

(** C9, the claim as it stands fails for [max_lines] below one: with
    [max_lines = -1] the marker is appended to an empty diff, and with
    [max_lines = 0] the marker alone makes two lines. *)
Lemma diff_exceeds_bound_below_one :
  Runs.run_diff "Hello" "Hello" (-1)
    = String LF "... (truncated, showing first -1 lines)"
  /\ (Z.of_nat (line_count (Runs.run_diff "Hello" "Hello" (-1))) > -1 + 1)%Z
  /\ Runs.run_diff "Hello" "Goodbye" 0
     = String LF "... (truncated, showing first 0 lines)"
  /\ (Z.of_nat (line_count (Runs.run_diff "Hello" "Goodbye" 0)) > 0 + 1)%Z.
Proof. repeat split. Qed.

Lemma diff_is_bounded_witness :
  (0 <= 30)%Z
  /\ (Z.of_nat (List.length
        (@diff_lines whole_change_matcher "Hello" "Goodbye" 30)) <= 30 + 1)%Z
  /\ (Z.of_nat (line_count (Runs.run_diff "Hello" "Goodbye" 30)) <= 30 + 1)%Z.
Proof.
  assert (H : (0 <= 30)%Z) by lia. split; [exact H|].
  pose proof (@diff_is_bounded whole_change_matcher "Hello" "Goodbye" 30 H)
    as (_ & Hlen & _ & _ & _ & Hlines).
  split; [exact Hlen|]. apply Hlines. lia.
Defined.

End DifflibFacts.

(** ** The comparator and the polling loop *)

Module MainFacts.
Import Bs4 PageTracker Difflib Main.

Section WithLibraries.
Context {P : HtmlParser} {E : SelectorEngine} {M : SequenceMatcher}
  {U : UrlParser}.

Lemma dispatched_app (t u : list event) :
  dispatched (t ++ u) = (dispatched t ++ dispatched u)%list.
Proof. unfold dispatched. apply flat_map_app. Qed.

(** [extract_element] raises nothing but [ValueError]. *)
Lemma apply_selectors_raises path current selectors e :
  apply_selectors path current selectors = Raises e -> is_ValueError e = true.
Proof.
  revert current. induction selectors as [|s rest IH]; intros current; simpl.
  - discriminate.
  - destruct (select_one current s) as [found|].
    + apply IH.
    + intros H. injection H as <-. reflexivity.
Qed.

Lemma extract_element_raises html path e :
  extract_element html path = Raises e -> is_ValueError e = true.
Proof.
  unfold extract_element.
  destruct (negb (PyStr.truthy path) || (PyStr.strip path =? "")).
  - destruct (find_name "body" (BeautifulSoup html)); discriminate.
  - destruct (apply_selectors path (BeautifulSoup html) (selectors_of path))
      as [el|e'] eqn:H; [discriminate|].
    intros H'. injection H' as <-. eapply apply_selectors_raises; eauto.
Qed.

Lemma extract_and_normalize_raises html selector e :
  extract_and_normalize html selector = Raises e -> is_ValueError e = true.
Proof.
  unfold extract_and_normalize.
  destruct (extract_element html selector) eqn:H; [discriminate|].
  intros H'. injection H' as <-. eapply extract_element_raises; eauto.
Qed.

(** [_notify_change] returns normally whatever the delivery does, leaves the
    detector as it is, and dispatches once when a notifier is configured. *)
Lemma notify_change_runs env old new self :
  exists t,
    _notify_change env old new self = (Returns tt, self, t) /\
    dispatched t =
      if _notifier self then [change_notification self old new] else [].
Proof.
  unfold _notify_change, bind, read, try_except, send_notification, emit, lift.
  destruct (_notifier self) eqn:Hn; simpl.
  - destruct (delivery env) as [[]|e]; simpl;
      eexists; (split; [reflexivity|]); reflexivity.
  - eexists; split; reflexivity.
Qed.

(** A cycle whose request fails. *)
Lemma check_fetch_fails env self e :
  response env = Raises e ->
  _check_for_changes env self =
    (Returns false,
     incr_error_count (set_last_request_time (Some (now env)) self),
     (time_log env self ++ [Log ERROR (FailedToFetchPage e)])%list).
Proof.
  intros Hr. unfold _check_for_changes, time_log, bind, read, _fetch_page,
    try_except, lift, update, emit, ret.
  rewrite Hr. destruct (_last_request_time self); reflexivity.
Qed.

(** A cycle whose extraction fails. *)
Lemma check_extract_fails env self html e :
  response env = Returns html ->
  extract_and_normalize html (_element_selector self) = Raises e ->
  _check_for_changes env self =
    (Returns false, incr_error_count (fetched env self),
     (time_log env self ++ [Log ERROR (FailedToExtractElement e)])%list).
Proof.
  intros Hr He. pose proof (extract_and_normalize_raises _ _ _ He) as Hv.
  unfold _check_for_changes, time_log, fetched, bind, read, _fetch_page,
    try_except, lift, update, emit, ret.
  rewrite Hr. destruct (_last_request_time self); simpl; rewrite He, Hv;
    reflexivity.
Qed.

(** A cycle whose request and extraction succeed, step by step. *)
Lemma check_succeeds env self html text :
  response env = Returns html ->
  extract_and_normalize html (_element_selector self) = Returns text ->
  _check_for_changes env self =
    let self1 := fetched env self in
    let seen := (time_log env self ++ [Log DEBUG (NormalizedContent text)])%list in
    match _previous_content self with
    | None =>
        (Returns false, set_previous_content (Some text) self1,
         (seen ++ [StoreContent text;
                   Log INFO (InitialContentStored (_success_count self1)
                               (_error_count self1))])%list)
    | Some old =>
        if text =? old then
          (Returns false, self1,
           (seen ++ [Log INFO (NoChange (_success_count self1)
                                 (_error_count self1))])%list)
        else
          let self2 := set_previous_content (Some text) self1 in
          (Returns true, self2,
           (seen ++ [StoreContent text;
                     Log INFO (ChangeDetected (_success_count self1)
                                 (_error_count self1))]
            ++ trace_of (_notify_change env old text self2))%list)
    end.
Proof.
  intros Hr He.
  destruct (notify_change_runs env
              match _previous_content self with Some o => o | None => "" end
              text (set_previous_content (Some text) (fetched env self)))
    as (t & Hn & _).
  unfold _check_for_changes, time_log, fetched, bind, read, _fetch_page,
    try_except, lift, update, emit, ret, log_counts,
    assign_previous_content in *.
  rewrite Hr.
  destruct (_last_request_time self); simpl; rewrite He; simpl;
    (destruct (_previous_content self) as [old|]; simpl;
     [destruct (text =? old); simpl; [reflexivity|]|reflexivity]);
    simpl in Hn; rewrite Hn; unfold trace_of; simpl; rewrite ?app_nil_r;
    reflexivity.
Qed.

(** A successful extraction gives the text of [extract_and_normalize]. *)
Lemma extracted html selector element :
  extract_element html selector = Returns element ->
  extract_and_normalize html selector = Returns (normalize_html element).
Proof. unfold extract_and_normalize. intros ->. reflexivity. Qed.

(** A cycle changes no configuration field. *)
Lemma check_keeps_configuration env self :
  let self' := state_of (_check_for_changes env self) in
  _url self' = _url self /\ _element_selector self' = _element_selector self
  /\ _notifier self' = _notifier self.
Proof.
  destruct (response env) as [html|e] eqn:Hr.
  - destruct (extract_and_normalize html (_element_selector self))
      as [text|e] eqn:He.
    + rewrite (check_succeeds _ _ _ _ Hr He). cbv zeta.
      destruct (_previous_content self) as [old|];
        [destruct (text =? old)|]; repeat split; reflexivity.
    + rewrite (check_extract_fails _ _ _ _ Hr He). repeat split; reflexivity.
  - rewrite (check_fetch_fails _ _ _ Hr). repeat split; reflexivity.
Qed.

(** A cycle that fails, or that arrives at the stored baseline again,
    reports nothing, dispatches nothing and keeps the baseline. *)
Lemma quiet_cycle env self baseline :
  _previous_content self = Some baseline ->
  observed self env = None \/ observed self env = Some baseline ->
  let r := _check_for_changes env self in
  result_of r = Returns false /\ dispatched (trace_of r) = []
  /\ _previous_content (state_of r) = Some baseline.
Proof.
  intros Hp Ho. unfold observed in Ho.
  destruct (response env) as [html|e] eqn:Hr.
  - destruct (extract_and_normalize html (_element_selector self))
      as [text|e] eqn:He.
    + destruct Ho as [Ho|Ho]; [discriminate|]. injection Ho as ->.
      cbv zeta. rewrite (check_succeeds _ _ _ _ Hr He). cbv zeta.
      rewrite Hp, String.eqb_refl. unfold result_of, trace_of, state_of; simpl.
      rewrite dispatched_app. unfold time_log.
      destruct (_last_request_time self); repeat split; auto.
    + cbv zeta. rewrite (check_extract_fails _ _ _ _ Hr He).
      unfold result_of, trace_of, state_of; simpl.
      rewrite dispatched_app. unfold time_log.
      destruct (_last_request_time self); repeat split; auto.
  - cbv zeta. rewrite (check_fetch_fails _ _ _ Hr).
    unfold result_of, trace_of, state_of; simpl.
    rewrite dispatched_app. unfold time_log.
    destruct (_last_request_time self); repeat split; auto.
Qed.

(** No cycle raises. *)
Lemma check_returns env self :
  exists changed, result_of (_check_for_changes env self) = Returns changed.
Proof.
  destruct (response env) as [html|e] eqn:Hr.
  - destruct (extract_and_normalize html (_element_selector self))
      as [text|e] eqn:He.
    + rewrite (check_succeeds _ _ _ _ Hr He). cbv zeta.
      destruct (_previous_content self) as [old|];
        [destruct (text =? old)|]; eexists; reflexivity.
    + rewrite (check_extract_fails _ _ _ _ Hr He). eexists; reflexivity.
  - rewrite (check_fetch_fails _ _ _ Hr). eexists; reflexivity.
Qed.

(** One turn of the loop. *)
Lemma run_cons env rest self changed :
  result_of (_check_for_changes env self) = Returns changed ->
  let first := _check_for_changes env self in
  let others := run rest (state_of first) in
  run (env :: rest) self =
    (match result_of others with
     | Returns later => Returns (changed :: later)
     | Raises e => Raises e
     end,
     state_of others, (trace_of first ++ trace_of others)%list).
Proof.
  intros Hc. cbv zeta. simpl. unfold bind at 1.
  destruct (_check_for_changes env self) as [[r self1] t1].
  unfold result_of in Hc; simpl in Hc; subst r.
  unfold bind, ret, result_of, state_of, trace_of; simpl.
  destruct (run rest self1) as [[[later|e] self2] t2]; simpl;
    rewrite ?app_nil_r; reflexivity.
Qed.

(** The loop goes through every cycle it is offered. *)
Lemma run_returns envs self :
  exists flags,
    result_of (run envs self) = Returns flags
    /\ List.length flags = List.length envs.
Proof.
  revert self. induction envs as [|env rest IH]; intros self.
  - exists []. split; reflexivity.
  - destruct (check_returns env self) as [changed Hc].
    rewrite (run_cons _ _ _ _ Hc). cbv zeta.
    destruct (IH (state_of (_check_for_changes env self)))
      as (later & Hl & Hn).
    exists (changed :: later).
    unfold result_of, state_of in *; cbn [fst snd] in *.
    rewrite Hl. split; [reflexivity|simpl; congruence].
Qed.

(** While the page keeps showing the baseline (or cannot be read), the loop
    reports and dispatches nothing. *)
Lemma run_quiet envs : forall self baseline,
  _previous_content self = Some baseline ->
  Forall (fun env => observed self env = None
                     \/ observed self env = Some baseline) envs ->
  let r := run envs self in
  result_of r = Returns (map (fun _ => false) envs)
  /\ dispatched (trace_of r) = []
  /\ _previous_content (state_of r) = Some baseline.
Proof.
  induction envs as [|env rest IH]; intros self baseline Hp Hq.
  - repeat split; auto.
  - inversion Hq as [|? ? Hhead Htail]; subst.
    destruct (quiet_cycle env self baseline Hp Hhead) as (Hr & Hd & Hs).
    cbv zeta in *. rewrite (run_cons _ _ _ _ Hr). cbv zeta.
    destruct (check_keeps_configuration env self) as (_ & Hsel & _).
    cbv zeta in Hsel.
    assert (Hq' : Forall (fun env0 =>
              observed (state_of (_check_for_changes env self)) env0 = None
              \/ observed (state_of (_check_for_changes env self)) env0
                 = Some baseline) rest).
    { eapply Forall_impl; [|exact Htail]. intros e He.
      unfold observed in *. rewrite Hsel. exact He. }
    destruct (IH _ baseline Hs Hq') as (Hr' & Hd' & Hs').
    unfold result_of, trace_of, state_of in *; cbn [fst snd] in *.
    rewrite Hr', dispatched_app, Hd, Hd'. repeat split; auto.
Qed.

(** C1: when the request and the extraction succeed and a baseline is
    stored, the cycle reports a change exactly when the new normalized text
    is not the stored baseline as a string; when the two are equal it
    reports no change, dispatches no notification and keeps the baseline. *)
Theorem change_reported_iff_text_differs
    (self : ChangeDetector) (env : cycle) (html element baseline : string) :
  response env = Returns html ->
  extract_element html (_element_selector self) = Returns element ->
  _previous_content self = Some baseline ->
  let r := _check_for_changes env self in
  (result_of r = Returns true <-> normalize_html element <> baseline)
  /\ (result_of r = Returns false <-> normalize_html element = baseline)
  /\ (normalize_html element = baseline ->
      dispatched (trace_of r) = []
      /\ _previous_content (state_of r) = Some baseline).
Proof.
  intros Hr He Hp. cbv zeta.
  rewrite (check_succeeds _ _ _ _ Hr (extracted _ _ _ He)). cbv zeta.
  rewrite Hp.
  destruct (String.eqb_spec (normalize_html element) baseline) as [Heq|Hne].
  - unfold result_of, trace_of, state_of; simpl.
    rewrite dispatched_app. unfold time_log.
    destruct (_last_request_time self); simpl;
      (split; [split; [discriminate|contradiction]|]);
      (split; [split; auto|]); intros _; split; auto.
  - unfold result_of; simpl.
    split; [split; auto|].
    split; [split; [discriminate|contradiction]|contradiction].
Qed.

(** C2: when the request and the extraction succeed and no baseline is
    stored yet, the cycle stores the normalized text as the baseline, reports
    no change whatever the text is, and dispatches no notification. *)
Theorem first_cycle_stores_baseline
    (self : ChangeDetector) (env : cycle) (html element : string) :
  response env = Returns html ->
  extract_element html (_element_selector self) = Returns element ->
  _previous_content self = None ->
  let r := _check_for_changes env self in
  result_of r = Returns false
  /\ _previous_content (state_of r) = Some (normalize_html element)
  /\ dispatched (trace_of r) = [].
Proof.
  intros Hr He Hp. cbv zeta.
  rewrite (check_succeeds _ _ _ _ Hr (extracted _ _ _ He)). cbv zeta.
  rewrite Hp. unfold result_of, trace_of, state_of; simpl.
  rewrite !dispatched_app. unfold time_log.
  destruct (_last_request_time self); repeat split; auto.
Qed.

Lemma stored_app (t u : list event) :
  stored (t ++ u) = (stored t ++ stored u)%list.
Proof. unfold stored. apply flat_map_app. Qed.

(** [_notify_change] assigns nothing to [_previous_content]. *)
Lemma notify_change_stores_nothing env old new self :
  stored (trace_of (_notify_change env old new self)) = [].
Proof.
  unfold _notify_change, bind, read, try_except, send_notification, emit, lift,
    trace_of.
  destruct (_notifier self); simpl; [|reflexivity].
  destruct (delivery env) as [[]|e]; reflexivity.
Qed.

(** C3: when a change is detected, the cycle assigns the new text to
    [_previous_content] once, and in the order of what it does that
    assignment comes first and every call of the notifier after it: nothing
    is dispatched before the assignment, and the one notification of a
    configured notifier is dispatched after it.  The baseline thus holds the
    new text at the point where [_notify_change] starts; whatever the
    delivery does, failure included, the cycle returns normally with the new
    text as baseline, a failed delivery is logged, the loop goes on through
    all the cycles that follow, and as long as the page shows that same text
    (or cannot be read) nothing more is reported or dispatched. *)
Theorem baseline_replaced_before_dispatch
    (self : ChangeDetector) (env : cycle) (rest : list cycle)
    (html element baseline : string) :
  response env = Returns html ->
  extract_element html (_element_selector self) = Returns element ->
  _previous_content self = Some baseline ->
  normalize_html element <> baseline ->
  let text := normalize_html element in
  let r := _check_for_changes env self in
  (exists before after : list event,
      trace_of r = (before ++ StoreContent text :: after)%list
      /\ stored before = [] /\ dispatched before = []
      /\ stored after = []
      /\ dispatched after
         = (if _notifier self
            then [change_notification self baseline text] else []))
  /\ (exists (committed : ChangeDetector) (before : list event),
      _previous_content committed = Some text
      /\ dispatched before = []
      /\ r = (Returns true,
              state_of (_notify_change env baseline text committed),
              (before
               ++ trace_of (_notify_change env baseline text committed))%list))
  /\ result_of r = Returns true
  /\ _previous_content (state_of r) = Some text
  /\ (forall e, _notifier self = true -> delivery env = Raises e ->
        In (Log ERROR (FailedToSendNotification e)) (trace_of r))
  /\ (exists later,
        result_of (run (env :: rest) self) = Returns (true :: later)
        /\ List.length later = List.length rest)
  /\ (Forall (fun next => observed self next = None
                          \/ observed self next = Some text) rest ->
      result_of (run rest (state_of r)) = Returns (map (fun _ => false) rest)
      /\ dispatched (trace_of (run rest (state_of r))) = []).
Proof.
  intros Hr He Hp Hne. cbv zeta.
  pose proof (check_succeeds _ _ _ _ Hr (extracted _ _ _ He)) as Hc.
  cbv zeta in Hc. rewrite Hp in Hc.
  destruct (String.eqb_spec (normalize_html element) baseline) as [Heq|_];
    [contradiction|].
  set (committed := set_previous_content (Some (normalize_html element))
                      (fetched env self)) in *.
  destruct (notify_change_runs env baseline (normalize_html element) committed)
    as (t & Hn & Hd).
  assert (Hres : result_of (_check_for_changes env self) = Returns true)
    by (rewrite Hc; reflexivity).
  assert (Hst : state_of (_check_for_changes env self) = committed)
    by (rewrite Hc; reflexivity).
  split; [|split; [|split; [|split; [|split; [|split]]]]].
  - exists (time_log env self
            ++ [Log DEBUG (NormalizedContent (normalize_html element))])%list.
    exists (Log INFO (ChangeDetected (_success_count (fetched env self))
                        (_error_count (fetched env self)))
            :: trace_of (_notify_change env baseline (normalize_html element)
                           committed)).
    split; [rewrite Hc; reflexivity|].
    split; [rewrite stored_app; unfold time_log;
            destruct (_last_request_time self); reflexivity|].
    split; [rewrite dispatched_app; unfold time_log;
            destruct (_last_request_time self); reflexivity|].
    split.
    + change (stored (trace_of (_notify_change env baseline
                                  (normalize_html element) committed)) = []).
      apply notify_change_stores_nothing.
    + change (dispatched (trace_of (_notify_change env baseline
                                      (normalize_html element) committed))
              = (if _notifier self
                 then [change_notification self baseline
                         (normalize_html element)] else [])).
      rewrite Hn. exact Hd.
  - exists committed.
    exists (time_log env self
            ++ [Log DEBUG (NormalizedContent (normalize_html element));
                StoreContent (normalize_html element);
                Log INFO (ChangeDetected (_success_count (fetched env self))
                            (_error_count (fetched env self)))])%list.
    split; [reflexivity|]. split.
    + rewrite dispatched_app. unfold time_log.
      destruct (_last_request_time self); reflexivity.
    + rewrite Hc, Hn. unfold state_of, trace_of; simpl.
      rewrite <- !app_assoc. reflexivity.
  - exact Hres.
  - rewrite Hst. reflexivity.
  - intros e Hnot Hdel. rewrite Hc. unfold trace_of at 1; simpl.
    apply in_or_app. right.
    unfold _notify_change, bind, read, try_except, send_notification, emit,
      lift, trace_of. subst committed; simpl. rewrite Hnot, Hdel. simpl.
    repeat (first [left; reflexivity | right]).
  - rewrite (run_cons _ _ _ _ Hres). cbv zeta.
    destruct (run_returns rest (state_of (_check_for_changes env self)))
      as (later & Hl & Hlen).
    exists later. unfold result_of, state_of in *; cbn [fst snd] in *.
    rewrite Hl. auto.
  - intros Hq. rewrite Hst.
    assert (Hq' : Forall (fun next => observed committed next = None
              \/ observed committed next
                 = Some (normalize_html element)) rest).
    { eapply Forall_impl; [|exact Hq]. intros e' He'. exact He'. }
    destruct (run_quiet rest committed (normalize_html element) eq_refl Hq')
      as (H1 & H2 & _).
    split; assumption.
Qed.

End WithLibraries.

Import HtmlParserModel.

Lemma change_reported_iff_text_differs_witness :
  response Runs.goodbye_cycle = Returns Runs.goodbye_page
  /\ result_of (Runs.run_check Runs.goodbye_cycle Runs.hello_detector)
     = Returns true.
Proof.
  split; [reflexivity|].
  refine (proj2 (proj1
    (@change_reported_iff_text_differs html_parser simple_selectors
       whole_change_matcher Runs.no_hostname Runs.hello_detector
       Runs.goodbye_cycle Runs.goodbye_page Runs.goodbye_page "Hello"
       eq_refl eq_refl eq_refl)) _).
  discriminate.
Defined.

Lemma first_cycle_stores_baseline_witness :
  _previous_content Runs.detector = None
  /\ result_of (Runs.run_check Runs.hello_cycle Runs.detector) = Returns false
  /\ _previous_content (state_of (Runs.run_check Runs.hello_cycle Runs.detector))
     = Some "Hello".
Proof.
  split; [reflexivity|].
  pose proof (@first_cycle_stores_baseline html_parser simple_selectors
                whole_change_matcher Runs.no_hostname Runs.detector
                Runs.hello_cycle Runs.hello_page Runs.hello_page
                eq_refl eq_refl eq_refl) as (Hr & Hs & _).
  split; [exact Hr|exact Hs].
Defined.

(** The scenario of three fetches: Hello is stored silently, Hello with a
    hidden input added changes nothing, Goodbye is reported once. *)
Example three_fetches :
  let r :=
    Runs.run_loop
      [Runs.hello_cycle;
       mkCycle 5 (Returns ("<body><p>Hello</p><input type=" ++ Runs.q
                           ++ "hidden" ++ Runs.q ++ " value=" ++ Runs.q
                           ++ "x" ++ Runs.q ++ "></body>")) (Returns tt);
       Runs.goodbye_cycle] Runs.detector in
  result_of r = Returns [false; false; true]
  /\ map diff (dispatched (trace_of r))
     = ["--- Previous+++ Current@@ -1 +1 @@-Hello+Goodbye"]
  /\ _previous_content (state_of r) = Some "Goodbye".
Proof. repeat split. Qed.

Lemma baseline_replaced_before_dispatch_witness :
  delivery Runs.undelivered_cycle = Raises (ClientError "503")
  /\ result_of (Runs.run_check Runs.undelivered_cycle Runs.hello_detector)
     = Returns true
  /\ _previous_content
       (state_of (Runs.run_check Runs.undelivered_cycle Runs.hello_detector))
     = Some "Goodbye"
  /\ dispatched
       (trace_of
          (Runs.run_loop [Runs.goodbye_cycle; Runs.failed_cycle]
             (state_of
                (Runs.run_check Runs.undelivered_cycle Runs.hello_detector))))
     = [].
Proof.
  split; [reflexivity|].
  assert (Hne : @normalize_html html_parser Runs.goodbye_page <> "Hello")
    by discriminate.
  pose proof (@baseline_replaced_before_dispatch html_parser simple_selectors
                whole_change_matcher Runs.no_hostname Runs.hello_detector
                Runs.undelivered_cycle [Runs.goodbye_cycle; Runs.failed_cycle]
                Runs.goodbye_page Runs.goodbye_page "Hello"
                eq_refl eq_refl eq_refl Hne)
    as (_ & _ & Hr & Hs & _ & _ & Hq).
  split; [exact Hr|]. split; [exact Hs|].
  apply Hq. constructor; [right; reflexivity|].
  constructor; [left; reflexivity|]. constructor.
Defined.

End MainFacts.

(** ** The loop as a whole *)

Module MainExtras.
Import Bs4 PageTracker Difflib Main Comparator MainFacts.

Section WithLibraries.
Context {P : HtmlParser} {E : SelectorEngine} {M : SequenceMatcher}
  {U : UrlParser}.

Lemma observed_selector (a b : ChangeDetector) (env : cycle) :
  _element_selector a = _element_selector b -> observed a env = observed b env.
Proof. unfold observed. intros ->. reflexivity. Qed.

(** Everything one cycle does, in terms of what it observes. *)
Lemma check_spec (env : cycle) (self : ChangeDetector) :
  let r := _check_for_changes env self in
  let seen := observed self env in
  result_of r = Returns (reports (_previous_content self) seen)
  /\ _previous_content (state_of r)
     = step_baseline (_previous_content self) seen
  /\ _success_count (state_of r)
     = _success_count self + (if fetch_succeeded env then 1 else 0)
  /\ _error_count (state_of r)
     = _error_count self + (if is_none seen then 1 else 0)
  /\ _last_request_time (state_of r) = Some (now env)
  /\ dispatched (trace_of r)
     = match _previous_content self, seen with
       | Some old, Some text =>
           if negb (text =? old) && _notifier self
           then [change_notification self old text] else []
       | _, _ => []
       end.
Proof.
  cbv zeta. unfold observed, fetch_succeeded.
  destruct (response env) as [html|e] eqn:Hr.
  - destruct (extract_and_normalize html (_element_selector self))
      as [text|e] eqn:He.
    + rewrite (check_succeeds _ _ _ _ Hr He). cbv zeta.
      destruct (_previous_content self) as [old|] eqn:Hp.
      * destruct (text =? old) eqn:Heq.
        -- apply String.eqb_eq in Heq. subst text.
           unfold result_of, state_of, trace_of, reports; cbn [fst snd].
           rewrite String.eqb_refl, dispatched_app. unfold time_log, fetched.
           destruct (_last_request_time self); cbn;
             repeat split; auto; lia.
        -- destruct (notify_change_runs env old text
                       (set_previous_content (Some text) (fetched env self)))
             as (t & Hn & Hd).
           rewrite Hn.
           unfold result_of, state_of, trace_of, reports; cbn [fst snd].
           rewrite Heq, !dispatched_app, Hd. unfold time_log, fetched.
           destruct (_last_request_time self); cbn;
             (destruct (_notifier self); cbn; repeat split; auto; lia).
      * unfold result_of, state_of, trace_of, reports; cbn [fst snd].
        rewrite dispatched_app. unfold time_log, fetched.
        destruct (_last_request_time self); cbn; repeat split; auto; lia.
    + rewrite (check_extract_fails _ _ _ _ Hr He).
      unfold result_of, state_of, trace_of, reports; cbn [fst snd].
      rewrite dispatched_app. unfold time_log, fetched.
      destruct (_last_request_time self), (_previous_content self) eqn:Hp;
        cbn; repeat split; auto; lia.
  - rewrite (check_fetch_fails _ _ _ Hr).
    unfold result_of, state_of, trace_of, reports; cbn [fst snd].
    rewrite dispatched_app. unfold time_log.
    destruct (_last_request_time self), (_previous_content self) eqn:Hp;
      cbn; repeat split; auto; lia.
Qed.

(** Everything a run does, in terms of what its cycles observe. *)
Lemma run_spec (envs : list cycle) : forall self : ChangeDetector,
  let r := run envs self in
  let seen := map (observed self) envs in
  let flags := expected_reports (_previous_content self) seen in
  result_of r = Returns flags
  /\ _previous_content (state_of r)
     = fold_left step_baseline seen (_previous_content self)
  /\ _success_count (state_of r)
     = _success_count self + count fetch_succeeded envs
  /\ _error_count (state_of r)
     = _error_count self + count (fun env => is_none (observed self env)) envs
  /\ List.length (dispatched (trace_of r))
     = (if _notifier self then count_true flags else 0)
  /\ Forall (fun n => url n = _url self) (dispatched (trace_of r)).
Proof.
  induction envs as [|env rest IH]; intros self; cbv zeta.
  - unfold count, count_true. cbn.
    destruct (_notifier self); repeat split; auto; lia.
  - destruct (check_spec env self) as (Hr & Hb & Hs & He & _ & Hd).
    cbv zeta in *.
    destruct (check_keeps_configuration env self) as (Hurl & Hsel & Hnot).
    cbv zeta in *.
    rewrite (run_cons _ _ _ _ Hr). cbv zeta.
    destruct (IH (state_of (_check_for_changes env self)))
      as (IHr & IHb & IHs & IHe & IHd & IHu).
    cbv zeta in *.
    assert (Hobs : map (observed (state_of (_check_for_changes env self))) rest
                   = map (observed self) rest).
    { apply map_ext. intros e. apply observed_selector. exact Hsel. }
    assert (Hcnt : count (fun e => is_none
                      (observed (state_of (_check_for_changes env self)) e)) rest
                   = count (fun e => is_none (observed self e)) rest).
    { unfold count. f_equal. apply filter_ext. intros e.
      rewrite (observed_selector _ self e Hsel). reflexivity. }
    rewrite Hobs, Hb in *. rewrite Hcnt in IHe. rewrite Hnot, Hurl in *.
    unfold result_of, state_of, trace_of in *; cbn [fst snd] in *.
    rewrite IHr, IHb, IHs, IHe, Hs, He, dispatched_app, length_app, IHd.
    cbn [map expected_reports fold_left].
    unfold count, count_true. cbn [filter].
    split; [reflexivity|]. split; [reflexivity|].
    split; [destruct (fetch_succeeded env); cbn [List.length]; lia|].
    split; [destruct (is_none (observed self env)); cbn [List.length]; lia|].
    split.
    + rewrite Hd. unfold reports.
      destruct (_previous_content self) as [old|];
        [destruct (observed self env) as [text|]|]; cbn;
        try (destruct (_notifier self); reflexivity).
      destruct (negb (text =? old)), (_notifier self); cbn; reflexivity.
    + apply Forall_app. split; [|exact IHu].
      rewrite Hd.
      destruct (_previous_content self) as [old|];
        [destruct (observed self env) as [text|]|]; try constructor.
      destruct (negb (text =? old) && _notifier self); constructor;
        [reflexivity|constructor].
Qed.

(** X2: after a run the baseline is the text of the last cycle that
    observed one, and the baseline the run started with when none did; a
    baseline once stored is never lost. *)
Theorem run_keeps_last_observed_text
    (envs : list cycle) (self : ChangeDetector) :
  _previous_content (state_of (run envs self))
  = fold_left step_baseline (map (observed self) envs)
      (_previous_content self)
  /\ (_previous_content self <> None ->
      _previous_content (state_of (run envs self)) <> None).
Proof.
  destruct (run_spec envs self) as (_ & Hb & _). cbv zeta in Hb.
  split; [exact Hb|]. rewrite Hb. clear Hb.
  generalize (_previous_content self) as b.
  induction (map (observed self) envs) as [|o l IH]; intros b Hb;
    [exact Hb|].
  cbn [fold_left]. apply IH. destruct o; [discriminate|exact Hb].
Qed.

(** X4: with a notifier configured a run dispatches one notification for
    each change it reports, and without one it dispatches none; every
    notification names the detector's URL. *)
Theorem run_dispatches_once_per_change
    (envs : list cycle) (self : ChangeDetector) :
  List.length (dispatched (trace_of (run envs self)))
  = (if _notifier self
     then count_true (expected_reports (_previous_content self)
                        (map (observed self) envs))
     else 0)
  /\ Forall (fun n => url n = _url self) (dispatched (trace_of (run envs self))).
Proof.
  destruct (run_spec envs self) as (_ & _ & _ & _ & Hd & Hu). auto.
Qed.

(** X5: a cycle that reports a change with a notifier configured dispatches
    exactly one notification, with the fixed title and message, the
    detector's URL and its host name, and the diff from the old baseline to
    the new text cut at 30 entries; any other cycle dispatches nothing, and
    every cycle records its time as the time of the last request. *)
Theorem cycle_dispatches_the_diff (env : cycle) (self : ChangeDetector) :
  let r := _check_for_changes env self in
  dispatched (trace_of r)
  = match _previous_content self, observed self env with
    | Some old, Some text =>
        if negb (text =? old) && _notifier self
        then [mkNotification "Page Change Detected"
                "The monitored webpage has been updated!" (_url self)
                (_extract_hostname (_url self))
                (_generate_diff old text 30)]
        else []
    | _, _ => []
    end
  /\ _last_request_time (state_of r) = Some (now env).
Proof.
  destruct (check_spec env self) as (_ & _ & _ & _ & Ht & Hd). auto.
Qed.

(** X6: [ChangeDetector.__init__] raises [ValueError] exactly when the
    URL is empty and [UnknownTimeZoneError] exactly when the URL is not
    empty and the time zone is unknown; the detector it returns otherwise
    has no baseline and zero counters, has a notifier exactly when the
    webhook URL is not empty, and its first cycle reports no change as
    detected and dispatches nothing, whatever the page. *)
Theorem startup_is_silent {T : TimeZones} {Float : Type}
    (target selector webhook zone : string) (reload : Z) (jitter : Float)
    (env : cycle) :
  (init target selector reload jitter webhook zone
   = Raises (ValueError "WEBPAGE_URL is required") <-> target = "")
  /\ (init target selector reload jitter webhook zone
      = Raises (UnknownTimeZoneError zone)
      <-> target <> "" /\ known_zone zone = false)
  /\ (forall self,
        init target selector reload jitter webhook zone = Returns self ->
        _url self = target
        /\ _previous_content self = None
        /\ _success_count self = 0 /\ _error_count self = 0
        /\ (_notifier self = true <-> webhook <> "")
        /\ result_of (_check_for_changes env self) <> Returns true
        /\ dispatched (trace_of (_check_for_changes env self)) = []).
Proof.
  unfold init, PyStr.truthy.
  destruct (String.eqb_spec target "") as [Ht|Ht]; cbn.
  - split; [split; auto|]. split; [split; [discriminate|tauto]|discriminate].
  - destruct (known_zone zone) eqn:Hz; cbn.
    + split; [split; [discriminate|contradiction]|].
      split; [split; [discriminate|intros [_ H]; discriminate]|].
      intros self H. injection H as <-. cbn.
      destruct (check_spec env
                  (mkDetector target selector reload (negb (webhook =? ""))
                     None None 0 0)) as (Hr & _ & _ & _ & _ & Hd).
      cbv zeta in *. cbn in Hr, Hd. rewrite Hr, Hd.
      destruct (String.eqb_spec webhook ""); cbn; repeat split;
        congruence.
    + split; [split; [discriminate|contradiction]|].
      split; [split; auto|discriminate].
Qed.

End WithLibraries.
End MainExtras.

(** ** More on element extraction *)

Module PageTrackerExtras.
Import Bs4 PageTracker PyStr PyStrFacts PageTrackerFacts.

(** What lies below a node that lies below another lies below that other. *)
Lemma descendants_trans (a : node) :
  forall b c, In b (descendants a) -> In c (descendants b) ->
              In c (descendants a).
Proof.
  induction a as [name attrs contents IH| | | |] using node_induction;
    intros b c; simpl; try (intros []).
  rewrite !in_flat_map. intros (ch & Hch & Hb) Hc.
  exists ch. split; [exact Hch|]. right.
  destruct Hb as [<-|Hb]; [exact Hc|].
  rewrite Forall_forall in IH. exact (IH ch Hch b c Hb Hc).
Qed.

Lemma split_not_nil sep s : split sep s <> [].
Proof.
  destruct s as [|c s]; simpl; [discriminate|].
  destruct (Ascii.eqb c sep); [discriminate|].
  destruct (split sep s); discriminate.
Qed.

(** Splitting at a separator splits both sides of it. *)
Lemma split_app sep a b :
  split sep (a ++ String sep b) = (split sep a ++ split sep b)%list.
Proof.
  induction a as [|c a IH].
  - simpl. rewrite Ascii.eqb_refl. reflexivity.
  - change (String c a ++ String sep b) with (String c (a ++ String sep b)).
    cbn [split]. rewrite IH.
    destruct (Ascii.eqb c sep); [reflexivity|].
    pose proof (split_not_nil sep a) as Hne.
    destruct (split sep a) as [|h t]; [contradiction|reflexivity].
Qed.

Lemma all_space_app a b : all_space (a ++ b) = all_space a && all_space b.
Proof.
  induction a as [|c a IH]; [reflexivity|].
  simpl. rewrite IH, andb_assoc. reflexivity.
Qed.

Section WithLibraries.
Context {P : HtmlParser} {E : SelectorEngine}.

Lemma select_one_below current selector found :
  select_one current selector = Some found ->
  is_tag found = true /\ css_match selector found = true
  /\ In found (descendants current).
Proof.
  unfold select_one. intros H. apply find_some in H as [Hin Hf].
  apply andb_prop in Hf as [Ht Hm]. auto.
Qed.

Lemma descend_app current before after :
  descend current (before ++ after) =
  match descend current before with
  | Some reached => descend reached after
  | None => None
  end.
Proof.
  revert current. induction before as [|s rest IH]; intros current;
    [reflexivity|].
  simpl. destruct (select_one current s) as [found|]; [apply IH|reflexivity].
Qed.

Lemma descend_below current selectors el :
  descend current selectors = Some el ->
  el = current \/ In el (descendants current).
Proof.
  revert current. induction selectors as [|s rest IH]; intros current; simpl.
  - intros H. injection H as <-. left. reflexivity.
  - destruct (select_one current s) as [found|] eqn:Hs; [|discriminate].
    intros H. right. apply select_one_below in Hs as (_ & _ & Hin).
    destruct (IH _ H) as [->|Hd]; [exact Hin|].
    exact (descendants_trans _ _ _ Hin Hd).
Qed.

Lemma selectors_of_bar a b :
  selectors_of (a ++ "|" ++ b) = (selectors_of a ++ selectors_of b)%list.
Proof.
  unfold selectors_of.
  change (a ++ "|" ++ b) with (a ++ String "|" b).
  rewrite split_app, filter_app, map_app. reflexivity.
Qed.

(** X7: when the path has a last selector and extraction succeeds, the
    markup returned is that of a tag of the document which the last selector
    matches. *)
Theorem extracted_element_matches_last_selector
    (html path : string) (before : list string) (last markup : string) :
  selectors_of path = (before ++ [last])%list ->
  extract_element html path = Returns markup ->
  exists el,
    markup = decode el /\ is_tag el = true /\ css_match last el = true
    /\ In el (descendants (BeautifulSoup html)).
Proof.
  intros Hsel Hex.
  assert (Hnb : strip path <> "").
  { intros Hb. rewrite (selectors_of_blank _ Hb) in Hsel.
    destruct before; discriminate. }
  unfold extract_element in Hex. rewrite blank_condition in Hex.
  destruct (String.eqb_spec (strip path) "") as [|_]; [contradiction|].
  destruct (apply_selectors path (BeautifulSoup html) (selectors_of path))
    as [el|e] eqn:Ha; [|discriminate].
  injection Hex as <-. apply apply_selectors_returns in Ha.
  rewrite Hsel, descend_app in Ha.
  destruct (descend (BeautifulSoup html) before) as [reached|] eqn:Hb;
    [|discriminate].
  simpl in Ha. destruct (select_one reached last) as [found|] eqn:Hs;
    [|discriminate].
  injection Ha as <-. apply select_one_below in Hs as (Ht & Hm & Hin).
  exists found. split; [reflexivity|]. split; [exact Ht|]. split; [exact Hm|].
  destruct (descend_below _ _ _ Hb) as [->|Hd]; [exact Hin|].
  exact (descendants_trans _ _ _ Hd Hin).
Qed.

(** X8: a path made of two paths with a bar between them has the selectors
    of the first followed by those of the second, and extraction along it
    succeeds exactly when the second path leads somewhere from the element
    the first one leads to; the markup is that of the element reached. *)
Theorem extract_composes_along_the_path (html a b : string) :
  selectors_of (a ++ "|" ++ b) = (selectors_of a ++ selectors_of b)%list
  /\ forall markup,
       extract_element html (a ++ "|" ++ b) = Returns markup <->
       exists outer inner,
         descend (BeautifulSoup html) (selectors_of a) = Some outer
         /\ descend outer (selectors_of b) = Some inner
         /\ markup = decode inner.
Proof.
  split; [apply selectors_of_bar|]. intros markup.
  assert (Hnb : strip (a ++ "|" ++ b) <> "").
  { intros Hb. apply strip_blank in Hb.
    rewrite all_space_app in Hb. apply andb_prop in Hb as [_ Hb].
    discriminate. }
  unfold extract_element. rewrite blank_condition.
  destruct (String.eqb_spec (strip (a ++ "|" ++ b)) "") as [|_];
    [contradiction|].
  rewrite selectors_of_bar.
  destruct (apply_selectors (a ++ "|" ++ b) (BeautifulSoup html)
              (selectors_of a ++ selectors_of b)) as [el|e] eqn:Ha.
  - apply apply_selectors_returns in Ha. rewrite descend_app in Ha.
    destruct (descend (BeautifulSoup html) (selectors_of a)) as [outer|];
      [|discriminate].
    split.
    + intros H. injection H as <-. exists outer, el. auto.
    + intros (outer' & inner & Ho & Hi & ->). injection Ho as <-.
      rewrite Hi in Ha. injection Ha as ->. reflexivity.
  - split; [discriminate|]. intros (outer & inner & Ho & Hi & _).
    assert (Hd : descend (BeautifulSoup html)
                   (selectors_of a ++ selectors_of b) = Some inner)
      by (rewrite descend_app, Ho; exact Hi).
    apply apply_selectors_returns with (path := a ++ "|" ++ b) in Hd.
    congruence.
Qed.

End WithLibraries.

Import HtmlParserModel.

Lemma extracted_element_matches_last_selector_witness :
  @selectors_of " #a | span " = ["#a"; "span"]
  /\ exists el,
       "<span>x</span>" = decode el /\ is_tag el = true
       /\ @css_match simple_selectors "span" el = true
       /\ In el (descendants (@BeautifulSoup html_parser Runs.nested_page)).
Proof.
  split; [reflexivity|].
  apply (@extracted_element_matches_last_selector html_parser
           simple_selectors Runs.nested_page " #a | span " ["#a"] "span"
           "<span>x</span>"); reflexivity.
Defined.

End PageTrackerExtras.

(** ** More on normalisation *)

Module NormalizeExtras.
Import Bs4 PageTracker PyStr PyStrFacts NormalizeFacts Churn.

Lemma stripped_strings_app l k :
  stripped_strings (l ++ k) = (stripped_strings l ++ stripped_strings k)%list.
Proof. unfold stripped_strings. rewrite map_app, filter_app. reflexivity. Qed.

Lemma visible_texts_tag name attrs contents :
  visible_texts (Tag name attrs contents) =
  if is_hidden (Tag name attrs contents) then []
  else flat_map visible_texts contents.
Proof. reflexivity. Qed.

(** Noise has no visible text. *)
Lemma noise_is_silent x :
  is_noise x = true -> stripped_strings (visible_texts x) = [].
Proof.
  induction x as [name attrs contents IH|t|t|t|c t] using node_induction;
    cbn [is_noise]; intros H; try reflexivity.
  - rewrite visible_texts_tag.
    destruct (is_hidden (Tag name attrs contents)); [reflexivity|].
    cbn [orb] in H. induction IH as [|c l Hc _ IHl]; [reflexivity|].
    cbn [forallb] in H. apply andb_true_iff in H as [H1 H2].
    cbn [flat_map]. rewrite stripped_strings_app, (Hc H1), (IHl H2).
    reflexivity.
  - change (visible_texts (NavigableString t)) with [t].
    unfold stripped_strings. cbn [map filter].
    rewrite (proj2 (strip_blank t) H). reflexivity.
Qed.

Lemma churn_keeps_text a b :
  churn a b ->
  stripped_strings (visible_texts a) = stripped_strings (visible_texts b).
Proof.
  induction 1 as [name attrs before after x Hx
                 |name attrs name' attrs' contents Ha Hb
                 |h h' Hh Hh'
                 |t t' Ht
                 |name attrs before after c c' _ IH
                 |n|a b _ IH|a b c _ IH1 _ IH2].
  - rewrite !visible_texts_tag.
    change (is_hidden (Tag name attrs (before ++ x :: after)%list))
      with (is_hidden (Tag name attrs (before ++ after)%list)).
    destruct (is_hidden (Tag name attrs (before ++ after)%list));
      [reflexivity|].
    rewrite !flat_map_app. cbn [flat_map].
    rewrite !stripped_strings_app, (noise_is_silent x Hx). reflexivity.
  - rewrite !visible_texts_tag, Ha, Hb. reflexivity.
  - destruct h as [n1 a1 c1| | | |], h' as [n2 a2 c2| | | |];
      try discriminate.
    rewrite !visible_texts_tag, Hh, Hh'. reflexivity.
  - change (visible_texts (NavigableString t)) with [t].
    change (visible_texts (NavigableString t')) with [t'].
    unfold stripped_strings. cbn [map filter]. rewrite Ht. reflexivity.
  - rewrite !visible_texts_tag.
    change (is_hidden (Tag name attrs (before ++ c' :: after)%list))
      with (is_hidden (Tag name attrs (before ++ c :: after)%list)).
    destruct (is_hidden (Tag name attrs (before ++ c :: after)%list));
      [reflexivity|].
    rewrite !flat_map_app. cbn [flat_map].
    rewrite !stripped_strings_app, IH. reflexivity.
  - reflexivity.
  - symmetry. exact IH.
  - rewrite IH1. exact IH2.
Qed.


Section WithLibraries.
Context {P : HtmlParser}.

(** X9: two documents whose parse trees differ only by nodes without
    visible text put in or taken out (comments, doctypes, strings of the
    classes [get_text] passes over, such as those inside [script], [style]
    and [template], whitespace strings, hidden elements, elements holding
    nothing else), by the name and the attributes of a tag whose contents,
    the classes of the strings included, are the same and which is hidden
    in neither, by what is inside hidden elements and by whitespace around
    text strings, have the same normalized text.  Turning [<p>Hello</p>]
    into [<script>Hello</script>] is no such difference: the parser gives
    the string another class. *)
Theorem normalize_ignores_churn (html1 html2 : string) :
  churn (BeautifulSoup html1) (BeautifulSoup html2) ->
  normalize_html html1 = normalize_html html2.
Proof.
  intros H. rewrite !normalize_html_visible.
  rewrite (churn_keeps_text _ _ H). reflexivity.
Qed.


End WithLibraries.

Import HtmlParserModel.

Lemma normalize_ignores_churn_witness :
  @normalize_html html_parser "<p>Hello</p>"
  = @normalize_html html_parser
      "<p>Hello</p><input type=hidden value=v>".
Proof.
  apply (@normalize_ignores_churn html_parser).
  apply (churn_insert ROOT_TAG_NAME [] [Tag "p" [] [NavigableString "Hello"]]
           [] (Tag "input" [("type", "hidden"); ("value", "v")] [])).
  reflexivity.
Defined.

(** The string inside a [script] element has the class [Script], and so
    adds nothing to the normalized text. *)
Example script_string_class :
  @BeautifulSoup html_parser "<script>Hello</script>"
  = Tag ROOT_TAG_NAME [] [Tag "script" [] [ContainedString Script "Hello"]].
Proof. reflexivity. Qed.

Example script_is_not_text :
  @normalize_html html_parser "<script>Hello</script>" = ""
  /\ @normalize_html html_parser "<p>Hello</p>" = "Hello"
  /\ @normalize_html html_parser "<p>Hello</p><style>p { }</style>" = "Hello".
Proof. repeat split; reflexivity. Qed.

End NormalizeExtras.

(** ** More on diff generation *)

Module DifflibExtras.
Import Difflib Main PyStr DifflibFacts DiffEntries.

Lemma append_empty_r s : s ++ "" = s.
Proof. induction s; simpl; congruence. Qed.






Section WithMatcher.
Context {M : SequenceMatcher}.

Lemma in_marked mark lines e :
  In e (marked mark lines) -> exists l, In l lines /\ e = mark ++ l.
Proof.
  unfold marked. rewrite in_map_iff. intros (l & <- & Hl). exists l. auto.
Qed.

Lemma unified_diff_entries a b n e :
  In e (unified_diff a b "Previous" "Current" "" n) -> diff_entry a b e.
Proof.
  unfold unified_diff, diff_entry.
  destruct (get_grouped_opcodes a b n) as [|g gs] eqn:Hg; [intros []|].
  intros [<-|[<-|H]]; [left; reflexivity|right; left; reflexivity|].
  right. right. apply in_flat_map in H as (group & _ & H).
  unfold hunk in H. destruct H as [<-|H].
  - left. eexists. eexists. rewrite append_empty_r. reflexivity.
  - right. unfold group_lines in H. apply in_flat_map in H as (op & _ & H).
    destruct (op_tag op).
    + apply in_app_or in H as [H|H]; apply in_marked in H as (l & Hl & ->);
        apply in_slice in Hl; [left|right]; exists l; auto.
    + apply in_marked in H as (l & Hl & ->). apply in_slice in Hl.
      left. exists l. auto.
    + apply in_marked in H as (l & Hl & ->). apply in_slice in Hl.
      right. exists l. auto.
    + apply in_marked in H as (l & Hl & ->). apply in_slice in Hl.
      left. exists l. auto.
Qed.

Lemma in_take {A : Type} (stop : Z) (l : list A) (x : A) :
  In x (take stop l) -> In x l.
Proof. unfold take. destruct (0 <=? stop)%Z; apply in_firstn. Qed.

(** X12: whatever the sequence matcher answers, every entry that
    [_generate_diff] joins is a file header, a hunk header, the truncation
    marker, a line of the old text behind a space or a minus sign, or a line
    of the new text behind a plus sign. *)
Theorem diff_shows_only_lines_of_the_texts
    (old_content new_content : string) (max_lines : Z) (e : string) :
  In e (diff_lines old_content new_content max_lines) ->
  e = truncation_marker max_lines
  \/ e = "--- Previous" \/ e = "+++ Current"
  \/ (exists r1 r2, e = "@@ -" ++ r1 ++ " +" ++ r2 ++ " @@")
  \/ (exists l, In l (splitlines old_content)
                /\ (e = " " ++ l \/ e = "-" ++ l))
  \/ (exists l, In l (splitlines new_content) /\ e = "+" ++ l).
Proof.
  unfold diff_lines.
  destruct (Z.of_nat _ >? max_lines)%Z.
  - intros H. apply in_app_or in H as [H|[<-|[]]]; [|left; reflexivity].
    right. apply in_take in H. exact (unified_diff_entries _ _ _ _ H).
  - intros H. right. exact (unified_diff_entries _ _ _ _ H).
Qed.

(** X13: a negative [max_lines] always counts as exceeded: the result is
    the unified diff without its last [-max_lines] entries, followed by the
    marker, even when the diff is empty. *)
Theorem negative_max_lines_always_truncates
    (old_content new_content : string) (max_lines : Z) :
  (max_lines < 0)%Z ->
  let full :=
    unified_diff (splitlines old_content) (splitlines new_content)
      "Previous" "Current" "" 2 in
  diff_lines old_content new_content max_lines
  = (firstn (List.length full - Z.to_nat (- max_lines)) full
     ++ [truncation_marker max_lines])%list.
Proof.
  intros Hm. cbv zeta. unfold diff_lines, take.
  set (full := unified_diff (splitlines old_content)
                 (splitlines new_content) "Previous" "Current" "" 2).
  destruct (Z.gtb_spec (Z.of_nat (List.length full)) max_lines); [|lia].
  destruct (Z.leb_spec 0 max_lines); [lia|].
  do 2 f_equal. lia.
Qed.

End WithMatcher.

Lemma diff_shows_only_lines_of_the_texts_witness :
  In "-Hello" (@diff_lines whole_change_matcher "Hello" "Goodbye" 30)
  /\ exists l, In l (splitlines "Hello") /\ "-Hello" = "-" ++ l.
Proof.
  assert (H : In "-Hello"
                (@diff_lines whole_change_matcher "Hello" "Goodbye" 30))
    by (cbv; tauto).
  split; [exact H|].
  destruct (@diff_shows_only_lines_of_the_texts whole_change_matcher
              "Hello" "Goodbye" 30 "-Hello" H)
    as [E|[E|[E|[(r1 & r2 & E)|[(l & Hl & [E|E])|(l & Hl & E)]]]]];
    try discriminate.
  exists l. auto.
Defined.

Lemma negative_max_lines_always_truncates_witness :
  (-1 < 0)%Z
  /\ @diff_lines whole_change_matcher "Hello" "Goodbye" (-1)
     = ["--- Previous"; "+++ Current"; "@@ -1 +1 @@"; "-Hello";
        truncation_marker (-1)].
Proof.
  assert (H : (-1 < 0)%Z) by lia. split; [exact H|].
  rewrite (@negative_max_lines_always_truncates whole_change_matcher
             "Hello" "Goodbye" (-1) H).
  reflexivity.
Defined.

End DifflibExtras.

(** ** The Discord notifier *)

Module DiscordFacts.
Import Discord.

Lemma length_append a b :
  String.length (a ++ b) = String.length a + String.length b.
Proof. induction a; simpl; congruence. Qed.

Lemma length_substring_0 (n : nat) : forall s,
  String.length (substring 0 n s) = Nat.min n (String.length s).
Proof.
  induction n as [|n IH]; intros s; destruct s as [|c s]; simpl;
    try reflexivity.
  rewrite IH. reflexivity.
Qed.

Lemma substring_0_append (n : nat) : forall s t,
  n <= String.length s -> substring 0 n (substring 0 n s ++ t) = substring 0 n s.
Proof.
  induction n as [|n IH]; intros s t H; destruct s as [|c s]; simpl in *;
    try lia.
  - destruct t; reflexivity.
  - destruct t; reflexivity.
  - rewrite IH; [reflexivity|lia].
Qed.

Lemma diff_value_cut (diff : string) :
  String.length (diff_value diff) <= 1024
  /\ (String.length diff <= 1024 -> diff_value diff = diff)
  /\ (1024 < String.length diff ->
      String.length (diff_value diff) = 1024
      /\ diff_value diff = substring 0 1021 diff ++ "..."
      /\ substring 0 1021 (diff_value diff) = substring 0 1021 diff).
Proof.
  unfold diff_value.
  destruct (Nat.leb_spec (String.length diff) 1024) as [Hle|Hgt].
  - split; [exact Hle|]. split; [reflexivity|lia].
  - assert (Hlen : String.length (substring 0 1021 diff ++ "...") = 1024).
    { rewrite length_append, length_substring_0.
      change (String.length "...") with 3. lia. }
    split; [lia|]. split; [lia|]. intros _.
    split; [exact Hlen|]. split; [reflexivity|].
    apply substring_0_append. lia.
Qed.

(** X14: the diff put in the Changes field has at most 1024 characters: it
    is the diff itself when that has 1024 characters or fewer, and otherwise
    has exactly 1024, the first 1021 of the diff followed by three dots. *)
Theorem diff_value_is_cut_at_1024 (diff : string) :
  String.length (diff_value diff) <= 1024
  /\ (String.length diff <= 1024 -> diff_value diff = diff)
  /\ (1024 < String.length diff ->
      String.length (diff_value diff) = 1024
      /\ diff_value diff = substring 0 1021 diff ++ "..."
      /\ substring 0 1021 (diff_value diff) = substring 0 1021 diff).
Proof. exact (diff_value_cut diff). Qed.

Section WithPictographs.
Context {G : Pictographs}.

(** The field that holds the diff. *)
Lemma changes_field diff :
  PyStr.truthy diff = true ->
  forall url hostname,
    List.last (fields_of url hostname (Some diff)) (mkField "" "" false)
    = mkField (memo_sign ++ " Changes")
        (fence_open ++ diff_value diff ++ fence_close) false.
Proof.
  intros Hd url hostname. unfold fields_of. rewrite Hd.
  apply last_last.
Qed.

(** X15: the value of the Changes field is the cut diff inside a code
    fence, twelve characters longer than the cut diff: it has up to 1036
    characters, and exactly 1036 whenever the diff has 1024 or more. *)
Theorem changes_field_value_length (url diff : string)
    (hostname : option string) :
  diff <> "" ->
  let changes :=
    List.last (fields_of url hostname (Some diff)) (mkField "" "" false) in
  value changes = fence_open ++ diff_value diff ++ fence_close
  /\ String.length (value changes) = String.length (diff_value diff) + 12
  /\ String.length (value changes) <= 1036
  /\ (1024 <= String.length diff -> String.length (value changes) = 1036).
Proof.
  intros Hne. cbv zeta.
  rewrite (changes_field diff (proj2 (PyStrFacts.truthy_spec diff) Hne)).
  cbn [value]. rewrite !length_append.
  change (String.length fence_open) with 8.
  change (String.length fence_close) with 4.
  destruct (diff_value_cut diff) as (Hle & Hsame & Hcut).
  split; [reflexivity|]. split; [lia|]. split; [lia|].
  intros H. destruct (Nat.eq_dec (String.length diff) 1024) as [E|E].
  - rewrite (Hsame (Nat.eq_le_incl _ _ E)). lia.
  - destruct (Hcut ltac:(lia)) as (Hl & _). lia.
Qed.

(** X16: a delivery whose time zone is unknown raises before anything is
    posted or any session created; otherwise the notifier creates a session
    only when it holds no open one, posts one embed to its webhook URL, ends
    as the request does and keeps the session open.  The embed has one field
    for the URL, one more when a host name is given and one more when a diff
    is given; a missing or empty host name or diff adds none. *)
Theorem send_posts_one_embed
    (env : delivery) (title message url : string)
    (hostname diff : option string) (self : DiscordNotifier) :
  let r := send_notification env title message url hostname diff self in
  (forall e, clock env = Raises e -> r = (Raises e, self, []))
  /\ (forall stamp, clock env = Returns stamp ->
        fst (fst r) = answer env
        /\ _session (snd (fst r)) = Some OpenSession
        /\ _webhook_url (snd (fst r)) = _webhook_url self
        /\ exists e,
             snd r = ((if Nat.eqb (open_sessions self) 1 then []
                       else [SessionCreated])
                      ++ [Post (_webhook_url self) [e]])%list
             /\ timestamp e = stamp
             /\ fields e = fields_of url hostname diff
             /\ List.length (fields e)
                = 1 + (if given hostname then 1 else 0)
                  + (if given diff then 1 else 0)).
Proof.
  cbv zeta. unfold send_notification. split.
  - intros e ->. reflexivity.
  - intros stamp ->. unfold _get_session, open_sessions.
    assert (Hlen : List.length (fields_of url hostname diff)
                   = 1 + (if given hostname then 1 else 0)
                     + (if given diff then 1 else 0)).
    { unfold fields_of, given.
      destruct hostname as [h|], diff as [d|];
        try destruct (PyStr.truthy h); try destruct (PyStr.truthy d);
        reflexivity. }
    destruct (_session self) as [[|]|] eqn:Hs; cbn; rewrite ?Hs;
      (split; [reflexivity|]); (split; [reflexivity|]);
      (split; [reflexivity|]); eexists;
      (split; [reflexivity|]); (split; [reflexivity|]);
      (split; [reflexivity|exact Hlen]).
Qed.

(** X17: [close] closes the open session if there is one and does nothing
    otherwise: called on a notifier that never opened a session it changes
    nothing, and called a second time it changes nothing. *)
Theorem close_is_idempotent (self : DiscordNotifier) :
  let r := close self in
  close (fst r) = (fst r, [])
  /\ open_sessions (fst r) = 0
  /\ closed (snd r) = open_sessions self
  /\ (_session self = None -> r = (self, [])).
Proof.
  cbv zeta. unfold close, open_sessions.
  destruct (_session self) as [[|]|] eqn:Hs; cbn; try rewrite Hs;
    repeat split; auto; discriminate.
Qed.

Lemma created_app t u : created (t ++ u) = created t + created u.
Proof. unfold created. rewrite filter_app, length_app. reflexivity. Qed.

Lemma closed_app t u : closed (t ++ u) = closed t + closed u.
Proof. unfold closed. rewrite filter_app, length_app. reflexivity. Qed.

(** One use of the notifier keeps the sessions in balance. *)
Lemma perform_balance (ops : list operation) : forall self,
  _session self <> Some ClosedSession ->
  let r := perform ops self in
  created (snd r) + open_sessions self = closed (snd r) + open_sessions (fst r)
  /\ _session (fst r) <> Some ClosedSession.
Proof.
  induction ops as [|op rest IH]; intros self Hs; cbv zeta.
  - cbn. split; [reflexivity|exact Hs].
  - cbn [perform].
    assert (Hstep : exists self1 t1,
              match op with
              | Send env title message url hostname diff =>
                  let '(_, self', t) :=
                    send_notification env title message url hostname diff self
                  in (self', t)
              | Close => close self
              end = (self1, t1)
              /\ created t1 + open_sessions self
                 = closed t1 + open_sessions self1
              /\ _session self1 <> Some ClosedSession).
    { destruct op as [env title message url hostname diff|].
      - unfold send_notification, _get_session, open_sessions.
        destruct (clock env) as [stamp|e].
        + destruct (_session self) as [[|]|] eqn:Hses;
            try contradiction; eexists; eexists;
            (split; [reflexivity|]); cbn; rewrite ?Hses;
            (split; [reflexivity|discriminate]).
        + eexists; eexists. split; [reflexivity|]. cbn. split; auto.
      - unfold close, open_sessions.
        destruct (_session self) as [[|]|] eqn:Hses;
          try contradiction; eexists; eexists;
          (split; [reflexivity|]); cbn; rewrite ?Hses;
          (split; [reflexivity|discriminate]). }
    destruct Hstep as (self1 & t1 & -> & Hb & Hs1).
    destruct (IH self1 Hs1) as (IHb & IHs). cbv zeta in *.
    destruct (perform rest self1) as [self2 t2]. cbn [fst snd] in *.
    rewrite created_app, closed_app. split; [lia|exact IHs].
Qed.

(** X18: from a notifier that holds no session, whatever deliveries and
    closes follow and however the deliveries end, the sessions created so
    far are the sessions closed so far plus the one still open, if any; so
    a notifier never holds two open sessions, and once [close] comes last
    every session that was created has been closed. *)
Theorem sessions_are_balanced
    (ops : list operation) (self : DiscordNotifier) :
  _session self = None ->
  let r := perform ops self in
  created (snd r) = closed (snd r) + open_sessions (fst r)
  /\ open_sessions (fst r) <= 1
  /\ created (snd (perform (ops ++ [Close]) self))
     = closed (snd (perform (ops ++ [Close]) self)).
Proof.
  intros Hs. cbv zeta.
  assert (Hw : _session self <> Some ClosedSession) by (rewrite Hs; discriminate).
  assert (H0 : open_sessions self = 0) by (unfold open_sessions; rewrite Hs; reflexivity).
  destruct (perform_balance ops self Hw) as (Hb & _). cbv zeta in Hb.
  split; [lia|]. split.
  - unfold open_sessions. destruct (_session (fst (perform ops self)))
      as [[|]|]; lia.
  - destruct (perform_balance (ops ++ [Close]) self Hw) as (Hc & _).
    cbv zeta in Hc.
    assert (Hend : open_sessions (fst (perform (ops ++ [Close]) self)) = 0).
    { clear. revert self. induction ops as [|op rest IH]; intros self.
      - cbn. unfold close, open_sessions.
        destruct (_session self) as [[|]|] eqn:E; cbn; rewrite ?E; reflexivity.
      - cbn [app perform].
        destruct (match op with
                  | Send env title message url hostname diff =>
                      let '(_, self', t) :=
                        send_notification env title message url hostname diff
                          self in (self', t)
                  | Close => close self
                  end) as [self1 t1].
        specialize (IH self1).
        destruct (perform (rest ++ [Close]) self1) as [self2 t2].
        exact IH. }
    lia.
Qed.

End WithPictographs.

(** X19: constructing a [DiscordNotifier] raises exactly when the webhook
    URL is empty, and the guard of [ChangeDetector.__init__] never lets that
    happen: the detector gets a notifier without a session when the webhook
    URL is not empty and none otherwise. *)
Theorem notifier_is_built_only_for_a_webhook (webhook timezone : string) :
  (init webhook timezone
   = Raises (ValueError "Discord webhook URL cannot be empty")
   <-> webhook = "")
  /\ notifier_for webhook timezone
     = Returns (if webhook =? "" then None
                else Some (mkNotifier webhook timezone None)).
Proof.
  unfold notifier_for, init, PyStr.truthy.
  destruct (String.eqb_spec webhook ""); cbn; split;
    try reflexivity; split; congruence.
Qed.

Lemma changes_field_value_length_witness :
  "-a" <> ""
  /\ String.length
       (value (List.last (@fields_of plain_signs "u" None (Some "-a"))
                 (mkField "" "" false))) = 14.
Proof.
  assert (H : "-a" <> "") by discriminate. split; [exact H|].
  destruct (@changes_field_value_length plain_signs "u" "-a" None H)
    as (_ & Hl & _).
  exact Hl.
Defined.

Lemma sessions_are_balanced_witness :
  _session (mkNotifier "https://discord.example/hook" "UTC" None) = None
  /\ created
       (snd (@perform plain_signs
               [Send (mkDelivery (Returns "t1") (Raises (ClientError "503")))
                  "a" "b" "c" None None;
                Send (mkDelivery (Returns "t2") (Returns tt))
                  "a" "b" "c" None None;
                Close]
               (mkNotifier "https://discord.example/hook" "UTC" None)))
     = 1.
Proof.
  split; [reflexivity|].
  destruct (@sessions_are_balanced plain_signs
              [Send (mkDelivery (Returns "t1") (Raises (ClientError "503")))
                 "a" "b" "c" None None;
               Send (mkDelivery (Returns "t2") (Returns tt))
                 "a" "b" "c" None None;
               Close]
              (mkNotifier "https://discord.example/hook" "UTC" None) eq_refl)
    as (Hb & _ & _).
  rewrite Hb. reflexivity.
Defined.

End DiscordFacts.
